(** * pyPESTO objective wrappers: [CachedObjective] and [LoggingObjective]

    A shallow embedding of [pypesto/sample/pymc3_interface/theano.py], and
    of the data that [pypesto/visualize/model_selection.py] plots.

    Python objects become records, attribute assignment becomes a state
    update, and a method body becomes a computation in a small monad that
    threads the state and carries a raised exception.  A raise does not
    undo the assignments made before it, so a computation answers with an
    outcome together with the state it left behind.

    The wrapped objective is taken as a deterministic evaluator: a function
    of the point, the sensitivity orders and the mode.  Each call made to it
    is written to a trace so that inner calls can be counted.  The numbers
    of an objective are integers, so there is no NaN; arrays are immutable
    lists (the source relies on the caller handing over a new array at
    each call, see the note in [call_unprocessed]). *)

From Stdlib Require Import ZArith List String Bool Lia.
From stdpp Require Import base option list strings gmap.
Import ListNotations.
Local Open Scope Z_scope.
Local Open Scope string_scope.
Local Open Scope list_scope.

(** ** Python values *)

(** A one-dimensional [np.ndarray]. *)
Definition ndarray : Type := list Z.

(** [sensi_orders : Tuple[int, ...]]. *)
Definition orders : Type := list Z.

(** What a result dictionary or a cached attribute can hold. *)
Inductive value : Type :=
| PyNone
| Scalar (v : Z)
| Vector (g : ndarray).

#[global] Instance value_eq_dec : EqDecision value.
Proof. solve_decision. Defined.

(** Exceptions that the modelled code raises or lets through. *)
Inductive exn : Type :=
| TypeError
| NotImplementedError
| ValueError
| KeyError (key : string)
| AssertionError
| FileNotFoundError (path : string)
| UnsupportedOrder
| InnerEvaluationFailure (detail : string).

#[global] Instance exn_eq_dec : EqDecision exn.
Proof. solve_decision. Defined.

Inductive Outcome (A : Type) : Type :=
| Returned (a : A)
| Raised (e : exn).
Arguments Returned {A} a.
Arguments Raised {A} e.

(** A method body run in a state of type [S]: the outcome and the state
    left behind, which keeps the assignments made before a raise. *)
Definition Eff (S A : Type) : Type := S -> Outcome A * S.

Definition raise {S A} (e : exn) : Eff S A := fun s => (Raised e, s).

#[global] Instance Eff_ret {S} : MRet (Eff S) := fun A a s => (Returned a, s).
#[global] Instance Eff_bind {S} : MBind (Eff S) := fun A B f m s =>
  match m s with
  | (Returned a, s') => f a s'
  | (Raised e, s') => (Raised e, s')
  end.

(** A computation that does not touch the state. *)
Definition lift {S A} (r : Outcome A) : Eff S A := fun s => (r, s).

(** [ResultDict]: a dictionary from result keys to values. *)
Abbreviation ResultDict := (gmap string value).

(** Constants of [pypesto.objective.constants], which is not among the
    sources: their values in pyPESTO.  [LoggingObjective] reads the key
    ['fval'] literally. *)
Definition MODE_FUN : string := "mode_fun".
Definition FVAL : string := "fval".
Definition GRAD : string := "grad".

(** ** The wrapped objective *)

(** The part of [ObjectiveBase] that the wrappers use.  The class itself
    lives in [pypesto.objective.base], outside the sources, so an
    objective is opaque: three functions and its parameter names. *)
Record ObjectiveBase : Type := {
  x_names : list string;
  inner_call_unprocessed : ndarray -> orders -> string -> Outcome ResultDict;
  inner_check_mode : string -> bool;
  inner_check_sensi_orders : orders -> string -> bool
}.

(** [copy.deepcopy] of an evaluator without mutable state. *)
Definition deepcopy_objective (o : ObjectiveBase) : ObjectiveBase := o.

(** One call made to the wrapped objective. *)
Record InnerCall : Type := {
  call_x : ndarray;
  call_sensi_orders : orders;
  call_mode : string
}.

#[global] Instance InnerCall_eq_dec : EqDecision InnerCall.
Proof. solve_decision. Defined.

(** [np.array_equal(x, self.x_cached)]: false against [None] (a
    one-dimensional array and a zero-dimensional object array differ in
    shape), elementwise equality of equal shapes otherwise. *)
Definition array_equal (x : ndarray) (y : option ndarray) : bool :=
  match y with
  | None => false
  | Some y' => bool_decide (x = y')
  end.

(** Tuple equality [sensi_orders == (...)]. *)
Definition tuple_eqb (a b : orders) : bool := bool_decide (a = b).

(** Python's [max] of a tuple; [None] stands for the [ValueError] raised on
    the empty tuple. *)
Definition tuple_max (t : orders) : option Z :=
  match t with
  | [] => None
  | z :: t' => Some (fold_left Z.max t' z)
  end.

(** ** CachedObjective *)

Module Cached.

(** The attributes of a [CachedObjective]; for [x_cached], [None] is
    Python's [None]. *)
Record CachedObjective : Type := {
  objective : ObjectiveBase;
  x_cached : option ndarray;
  fval_cached : value;
  grad_cached : value;
  grad_has_been_used : bool
}.

(** The state a method runs in: the object and the trace of the calls made
    to the wrapped objective so far, oldest first. *)
Record State : Type := {
  self : CachedObjective;
  inner_calls : list InnerCall
}.

Abbreviation M := (Eff State).

Definition get_self : M CachedObjective := fun s => (Returned (self s), s).

Definition set_x_cached (v : option ndarray) : M unit := fun s =>
  (Returned tt,
   {| self := {| objective := objective (self s); x_cached := v;
                 fval_cached := fval_cached (self s);
                 grad_cached := grad_cached (self s);
                 grad_has_been_used := grad_has_been_used (self s) |};
      inner_calls := inner_calls s |}).

Definition set_fval_cached (v : value) : M unit := fun s =>
  (Returned tt,
   {| self := {| objective := objective (self s); x_cached := x_cached (self s);
                 fval_cached := v;
                 grad_cached := grad_cached (self s);
                 grad_has_been_used := grad_has_been_used (self s) |};
      inner_calls := inner_calls s |}).

Definition set_grad_cached (v : value) : M unit := fun s =>
  (Returned tt,
   {| self := {| objective := objective (self s); x_cached := x_cached (self s);
                 fval_cached := fval_cached (self s);
                 grad_cached := v;
                 grad_has_been_used := grad_has_been_used (self s) |};
      inner_calls := inner_calls s |}).

Definition set_grad_has_been_used (b : bool) : M unit := fun s =>
  (Returned tt,
   {| self := {| objective := objective (self s); x_cached := x_cached (self s);
                 fval_cached := fval_cached (self s);
                 grad_cached := grad_cached (self s);
                 grad_has_been_used := b |};
      inner_calls := inner_calls s |}).

(** [self.objective.call_unprocessed(x, sensi_orders, mode)]: the call is
    traced whether it returns or raises. *)
Definition call_objective (x : ndarray) (sensi_orders : orders) (mode : string)
  : M ResultDict := fun s =>
  (inner_call_unprocessed (objective (self s)) x sensi_orders mode,
   {| self := self s;
      inner_calls := inner_calls s ++
        [{| call_x := x; call_sensi_orders := sensi_orders; call_mode := mode |}] |}).

(** [retval[key]] *)
Definition getitem (retval : ResultDict) (key : string) : M value :=
  match retval !! key with
  | Some v => mret v
  | None => raise (KeyError key)
  end.

(** [CachedObjective.__init__].  The argument is typed, so the
    [isinstance] test cannot fail; [pre_post_processor] is carried along
    with the objective. *)
Definition __init__ (objective : ObjectiveBase) : Outcome CachedObjective :=
  if negb (inner_check_mode objective MODE_FUN) then Raised NotImplementedError
  else Returned {| objective := objective;
                   x_cached := None;
                   fval_cached := PyNone;
                   grad_cached := PyNone;
                   grad_has_been_used := false |}.

(** [CachedObjective.__deepcopy__]: builds a new object and assigns
    nothing on [self]. *)
Definition __deepcopy__ : M CachedObjective :=
  this ← get_self;
  lift (__init__ (deepcopy_objective (objective this))).

(** [CachedObjective.initialize]; initializing a stateless inner
    objective does nothing. *)
Definition initialize : M unit :=
  set_x_cached None ;;
  set_fval_cached PyNone ;;
  set_grad_cached PyNone ;;
  set_grad_has_been_used false.

(** The tail of [call_unprocessed]: the required values are in the cache. *)
Definition answer_from_cache (sensi_orders : orders) : M ResultDict :=
  if tuple_eqb sensi_orders [0] then
    this ← get_self;
    mret {[ FVAL := fval_cached this ]}
  else if tuple_eqb sensi_orders [1] then
    set_grad_has_been_used true ;;
    this ← get_self;
    mret {[ GRAD := grad_cached this ]}
  else
    if tuple_eqb sensi_orders [0; 1] then
      set_grad_has_been_used true ;;
      this ← get_self;
      mret (<[ FVAL := fval_cached this ]> {[ GRAD := grad_cached this ]})
    else raise AssertionError.

(** [CachedObjective.call_unprocessed].  The two early [return]s of the
    source are the two branches that do not reach [answer_from_cache].
    [self.x_cached = x] stores the caller's array itself; arrays are
    immutable here, which is the source's own assumption (its note says
    that [x] is a different object at each call). *)
Definition call_unprocessed (x : ndarray) (sensi_orders : orders) (mode : string)
  : M ResultDict :=
  this ← get_self;
  if tuple_eqb sensi_orders [0] && bool_decide (x_cached this = None) then
    call_objective x sensi_orders mode
  else
    if negb (array_equal x (x_cached this)) then
      if tuple_eqb sensi_orders [0] && negb (grad_has_been_used this) then
        set_x_cached None ;;
        call_objective x sensi_orders mode
      else
        retval ← call_objective x [0; 1] mode;
        set_x_cached (Some x) ;;
        fval ← getitem retval FVAL;
        set_fval_cached fval ;;
        grad ← getitem retval GRAD;
        set_grad_cached grad ;;
        set_grad_has_been_used false ;;
        answer_from_cache sensi_orders
    else
      answer_from_cache sensi_orders.

(** [CachedObjective.check_mode] *)
Definition check_mode (this : CachedObjective) (mode : string) : bool :=
  bool_decide (mode = MODE_FUN).

(** [CachedObjective.check_sensi_orders]; [max] raises on the empty
    tuple. *)
Definition check_sensi_orders (this : CachedObjective) (sensi_orders : orders)
    (mode : string) : Outcome bool :=
  match tuple_max sensi_orders with
  | None => Raised ValueError
  | Some m =>
      if bool_decide (m > 1) || negb (bool_decide (mode = MODE_FUN)) then Returned false
      else Returned (inner_check_sensi_orders (objective this) sensi_orders mode)
  end.

(** Modelled from the spec: [ObjectiveBase.__call__], the public
    [evaluate], is in [pypesto/objective/base.py], which is not among the
    sources.  By the spec the requested orders are checked first and an
    unsupported request fails with [UnsupportedOrder] before the cache
    logic is reached; the note next to the [assert] of [call_unprocessed]
    names [check_sensi_orders] as that check. *)
Definition evaluate (x : ndarray) (sensi_orders : orders) (mode : string)
  : M ResultDict :=
  this ← get_self;
  ok ← lift (check_sensi_orders this sensi_orders mode);
  if ok : bool then call_unprocessed x sensi_orders mode
  else raise UnsupportedOrder.

(** What a client does with the object between two observations. *)
Inductive op : Type :=
| Call (x : ndarray) (sensi_orders : orders)
| Initialize.

Definition run_op (mode : string) (o : op) (s : State) : State :=
  match o with
  | Call x sensi_orders => snd (call_unprocessed x sensi_orders mode s)
  | Initialize => snd (initialize s)
  end.

Definition run_ops (mode : string) (ops : list op) (s : State) : State :=
  fold_left (fun s o => run_op mode o s) ops s.

(** A sequence of [call_unprocessed]: the outcomes in call order and the
    final state. *)
Fixpoint run_calls (mode : string) (calls : list (ndarray * orders)) (s : State)
  : list (Outcome ResultDict) * State :=
  match calls with
  | [] => ([], s)
  | (x, sensi_orders) :: rest =>
      let (r, s1) := call_unprocessed x sensi_orders mode s in
      let (rs, s2) := run_calls mode rest s1 in
      (r :: rs, s2)
  end.

(** The trace entry of an inner call. *)
Definition mk_call (mode : string) (x : ndarray) (sensi_orders : orders)
  : InnerCall :=
  {| call_x := x; call_sensi_orders := sensi_orders; call_mode := mode |}.

(** The object after [self.x_cached = v]. *)
Definition with_x_cached (this : CachedObjective) (v : option ndarray)
  : CachedObjective :=
  {| objective := objective this; x_cached := v;
     fval_cached := fval_cached this; grad_cached := grad_cached this;
     grad_has_been_used := grad_has_been_used this |}.

(** The object as [__init__] leaves it. *)
Definition blank (o : ObjectiveBase) : CachedObjective :=
  {| objective := o; x_cached := None; fval_cached := PyNone;
     grad_cached := PyNone; grad_has_been_used := false |}.

(** The state right after construction. *)
Definition start (this : CachedObjective) : State :=
  {| self := this; inner_calls := [] |}.

(** The joint evaluation at [x] returns and carries both keys with
    values other than [None]. *)
Definition joint_result (o : ObjectiveBase) (x : ndarray) (mode : string)
    (fval grad : value) : Prop :=
  exists r, inner_call_unprocessed o x [0; 1] mode = Returned r
            /\ r !! FVAL = Some fval /\ r !! GRAD = Some grad
            /\ fval <> PyNone /\ grad <> PyNone.

(** The Evaluator contract for joint requests: a joint evaluation that
    returns carries both results. *)
Definition joint_complete (o : ObjectiveBase) : Prop :=
  forall x mode r,
    inner_call_unprocessed o x [0; 1] mode = Returned r ->
    exists fval grad, r !! FVAL = Some fval /\ r !! GRAD = Some grad
                      /\ fval <> PyNone /\ grad <> PyNone.

(** The cache invariant as the data model words it: the cached results
    are defined exactly when [x_cached] is set, and they are the joint
    result at [x_cached]. *)
Definition invariant_as_specified (mode : string) (this : CachedObjective) : Prop :=
  ((fval_cached this <> PyNone /\ grad_cached this <> PyNone)
   <-> x_cached this <> None)
  /\ (forall x, x_cached this = Some x ->
       joint_result (objective this) x mode (fval_cached this) (grad_cached this)).

(** The invariant the code keeps: [x_cached] alone says whether the cache
    is valid. *)
Definition cache_invariant (mode : string) (this : CachedObjective) : Prop :=
  forall x, x_cached this = Some x ->
    joint_result (objective this) x mode (fval_cached this) (grad_cached this).

(** The request reaches the "Repopulate cache" lines of
    [call_unprocessed]. *)
Definition repopulates (this : CachedObjective) (x : ndarray)
    (sensi_orders : orders) : bool :=
  negb (tuple_eqb sensi_orders [0] && bool_decide (x_cached this = None))
  && negb (array_equal x (x_cached this))
  && negb (tuple_eqb sensi_orders [0] && negb (grad_has_been_used this)).

(** Two objects that no request can tell apart: the same inner
    objective and the same [x_cached], and the same cached results and
    flag whenever [x_cached] is set. *)
Definition same_view (a b : CachedObjective) : Prop :=
  objective a = objective b
  /\ x_cached a = x_cached b
  /\ (x_cached a <> None ->
      fval_cached a = fval_cached b
      /\ grad_cached a = grad_cached b
      /\ grad_has_been_used a = grad_has_been_used b).

(** The request pattern of a gradient-based sampler: at each point the
    value, then the gradient. *)
Definition value_then_gradient (xs : list ndarray) : list (ndarray * orders) :=
  flat_map (fun x => [(x, [0]); (x, [1])]) xs.

(** Each point differs from the one before it, [y] being before the
    first. *)
Fixpoint adjacent_distinct (y : ndarray) (xs : list ndarray) : Prop :=
  match xs with
  | [] => True
  | x :: xs' => y <> x /\ adjacent_distinct x xs'
  end.

(** What happens to the object between two observations, each request
    with its own mode. *)
Inductive event : Type :=
| Evaluate (x : ndarray) (sensi_orders : orders) (mode : string)
| Reinitialize.

Definition run_event (e : event) (s : State) : State :=
  match e with
  | Evaluate x sensi_orders mode => snd (call_unprocessed x sensi_orders mode s)
  | Reinitialize => snd (initialize s)
  end.

Definition run_events (events : list event) (s : State) : State :=
  fold_left (fun s e => run_event e s) events s.

(** The modes of the requests made, in order. *)
Definition event_modes (events : list event) : list string :=
  flat_map (fun e => match e with
                     | Evaluate _ _ mode => [mode]
                     | Reinitialize => []
                     end) events.

(** The events run in order: the outcomes of the requests, and the final
    state. *)
Fixpoint observe (events : list event) (s : State)
  : list (Outcome ResultDict) * State :=
  match events with
  | [] => ([], s)
  | Evaluate x sensi_orders mode :: rest =>
      let (r, s1) := call_unprocessed x sensi_orders mode s in
      let (rs, s2) := observe rest s1 in
      (r :: rs, s2)
  | Reinitialize :: rest => observe rest (snd (initialize s))
  end.

(** What the three cache attributes hold together, [modes] being the
    modes of the requests made so far.  With [x_cached] set, the cached
    results are the joint result at that point.  With [x_cached] empty
    they are both [None], or they are still the joint result at some
    point. *)
Definition stored_results (modes : list string) (this : CachedObjective) : Prop :=
  match x_cached this with
  | Some x =>
      exists mode, mode ∈ modes
        /\ joint_result (objective this) x mode (fval_cached this) (grad_cached this)
  | None =>
      (fval_cached this = PyNone /\ grad_cached this = PyNone)
      \/ exists x' mode, mode ∈ modes
           /\ joint_result (objective this) x' mode
                (fval_cached this) (grad_cached this)
  end.

End Cached.

(** ** LoggingObjective *)

Module Logging.

(** An entry of the pickled log: [dict(x=, sensi_orders=, mode=, err=)]
    or [dict(x=, sensi_orders=, mode=, fval=)]; a key that the dictionary
    does not have reads as [None]. *)
Record LogEntry : Type := {
  log_x : ndarray;
  log_sensi_orders : orders;
  log_mode : string;
  log_fval : option value;
  log_err : option exn
}.

#[global] Instance LogEntry_eq_dec : EqDecision LogEntry.
Proof. solve_decision. Defined.

Record LoggingObjective : Type := {
  objective : ObjectiveBase;
  filename : string;
  print_idx : bool
}.

(** The outside world of a logger: the log files by path, each holding a
    pickled list, and the indices printed to [sys.stderr]. *)
Record World : Type := {
  files : gmap string (list LogEntry);
  stderr : list nat
}.

Abbreviation M := (Eff World).

(** [with open(path, 'rb') as f: pickle.load(f)] *)
Definition load (path : string) : M (list LogEntry) := fun w =>
  match files w !! path with
  | Some log => (Returned log, w)
  | None => (Raised (FileNotFoundError path), w)
  end.

(** [with open(path, 'wb') as f: pickle.dump(log, f)]; the file can be
    written and the log pickled. *)
Definition dump (path : string) (log : list LogEntry) : M unit := fun w =>
  (Returned tt, {| files := <[ path := log ]> (files w); stderr := stderr w |}).

(** [os.remove(path)] *)
Definition remove (path : string) : M unit := fun w =>
  (Returned tt, {| files := delete path (files w); stderr := stderr w |}).

(** [os.path.exists(path)] *)
Definition exists_ (path : string) : M bool := fun w =>
  (Returned (bool_decide (is_Some (files w !! path))), w).

(** [print(f"... idx = {idx}", file=sys.stderr)] *)
Definition print_stderr (idx : nat) : M unit := fun w =>
  (Returned tt, {| files := files w; stderr := stderr w ++ [idx] |}).

(** [LoggingObjective.__init__]; the argument is typed, so the
    [isinstance] test cannot fail. *)
Definition __init__ (objective : ObjectiveBase) (filename : string)
    (print_idx reset : bool) : M LoggingObjective :=
  let this := {| objective := objective; filename := filename;
                 print_idx := print_idx |} in
  there ← exists_ filename;
  (if there : bool then
     if reset then remove filename ;; dump filename []
     else mret tt
   else dump filename []) ;;
  mret this.

(** [LoggingObjective.__deepcopy__] *)
Definition __deepcopy__ (this : LoggingObjective) : M LoggingObjective :=
  __init__ (deepcopy_objective (objective this)) (filename this)
           (print_idx this) false.

Definition entry_err (x : ndarray) (sensi_orders : orders) (mode : string)
    (err : exn) : LogEntry :=
  {| log_x := x; log_sensi_orders := sensi_orders; log_mode := mode;
     log_fval := None; log_err := Some err |}.

Definition entry_fval (x : ndarray) (sensi_orders : orders) (mode : string)
    (fval : value) : LogEntry :=
  {| log_x := x; log_sensi_orders := sensi_orders; log_mode := mode;
     log_fval := Some fval; log_err := None |}.

(** [LoggingObjective.call_unprocessed].  The [try] statement is written
    out by exit path: the [except] clause appends and re-raises, the
    [else] clause reads [retval['fval']] (a [KeyError] there is not caught
    by the [except] clause of the same statement) and appends, and the
    [finally] clause dumps the log on each path.  The failures of the
    wrapped objective are instances of [Exception]. *)
Definition call_unprocessed (this : LoggingObjective) (x : ndarray)
    (sensi_orders : orders) (mode : string) : M ResultDict :=
  log ← load (filename this);
  (if print_idx this then print_stderr (length log) else mret tt) ;;
  match inner_call_unprocessed (objective this) x sensi_orders mode with
  | Raised err =>
      dump (filename this) (log ++ [entry_err x sensi_orders mode err]) ;;
      raise err
  | Returned retval =>
      match retval !! "fval" with
      | None =>
          dump (filename this) log ;;
          raise (KeyError "fval")
      | Some fval =>
          dump (filename this) (log ++ [entry_fval x sensi_orders mode fval]) ;;
          mret retval
      end
  end.

(** [LoggingObjective.check_mode] and [check_sensi_orders] *)
Definition check_mode (this : LoggingObjective) (mode : string) : bool :=
  inner_check_mode (objective this) mode.

Definition check_sensi_orders (this : LoggingObjective) (sensi_orders : orders)
    (mode : string) : bool :=
  inner_check_sensi_orders (objective this) sensi_orders mode.

(** The world after a call that found [log] in the file and dumped
    [log']. *)
Definition after_call (this : LoggingObjective) (w : World)
    (log log' : list LogEntry) : World :=
  {| files := <[ filename this := log' ]> (files w);
     stderr := if print_idx this then stderr w ++ [length log] else stderr w |}.

(** The inner outcome of a request is one the [try] statement can write
    down: a failure, or a result that has the key ['fval']. *)
Definition loggable (o : ObjectiveBase) (mode : string)
    (call : ndarray * orders) : bool :=
  match inner_call_unprocessed o (fst call) (snd call) mode with
  | Raised _ => true
  | Returned retval => bool_decide (is_Some (retval !! "fval"))
  end.

(** The entry that a request leaves in the log, if it leaves one. *)
Definition entry_of (o : ObjectiveBase) (mode : string)
    (call : ndarray * orders) : option LogEntry :=
  match inner_call_unprocessed o (fst call) (snd call) mode with
  | Raised err => Some (entry_err (fst call) (snd call) mode err)
  | Returned retval =>
      match retval !! "fval" with
      | Some fval => Some (entry_fval (fst call) (snd call) mode fval)
      | None => None
      end
  end.

(** The outcome that the caller of a request sees when the log file is
    there. *)
Definition outcome_of (o : ObjectiveBase) (mode : string)
    (call : ndarray * orders) : Outcome ResultDict :=
  match inner_call_unprocessed o (fst call) (snd call) mode with
  | Raised err => Raised err
  | Returned retval =>
      match retval !! "fval" with
      | Some _ => Returned retval
      | None => Raised (KeyError "fval")
      end
  end.

(** A sequence of calls on one logger: the outcomes in call order and the
    world afterwards. *)
Fixpoint run_calls (this : LoggingObjective) (mode : string)
    (calls : list (ndarray * orders)) (w : World)
  : list (Outcome ResultDict) * World :=
  match calls with
  | [] => ([], w)
  | (x, sensi_orders) :: rest =>
      let (r, w1) := call_unprocessed this x sensi_orders mode w in
      let (rs, w2) := run_calls this mode rest w1 in
      (r :: rs, w2)
  end.

End Logging.

(** ** Example objectives *)

Module Examples.

(** The evaluator of the spec's scenario: the value is [sum(x)] and the
    gradient is [ones(len(x))].  A point with a negative coordinate is
    outside its domain and the evaluation fails there. *)
Definition sum_call (x : ndarray) (sensi_orders : orders) (mode : string)
  : Outcome ResultDict :=
  if forallb (Z.leb 0) x then
    let fval := Scalar (fold_right Z.add 0 x) in
    let grad := Vector (map (fun _ => 1) x) in
    if tuple_eqb sensi_orders [0] then Returned {[ FVAL := fval ]}
    else if tuple_eqb sensi_orders [1] then Returned {[ GRAD := grad ]}
    else Returned (<[ FVAL := fval ]> {[ GRAD := grad ]})
  else Raised (InnerEvaluationFailure "negative coordinate").

(** Its capability query looks at the highest order only. *)
Definition sum_objective : ObjectiveBase :=
  {| x_names := ["a"; "b"];
     inner_call_unprocessed := sum_call;
     inner_check_mode := fun mode => bool_decide (mode = MODE_FUN);
     inner_check_sensi_orders := fun sensi_orders _ =>
       forallb (fun z => Z.leb z 1) sensi_orders |}.

(** An objective that runs in [MODE_FUN] and advertises no orders. *)
Definition mute_objective : ObjectiveBase :=
  {| x_names := ["a"; "b"];
     inner_call_unprocessed := sum_call;
     inner_check_mode := fun mode => bool_decide (mode = MODE_FUN);
     inner_check_sensi_orders := fun _ _ => false |}.

(** An objective whose joint results lack the value: it answers every
    request with the gradient alone. *)
Definition gradient_only_objective : ObjectiveBase :=
  {| x_names := ["a"; "b"];
     inner_call_unprocessed := fun x _ _ =>
       Returned {[ GRAD := Vector (map (fun _ => 1) x) ]};
     inner_check_mode := fun mode => bool_decide (mode = MODE_FUN);
     inner_check_sensi_orders := fun _ _ => true |}.

Definition sum_cache : Cached.CachedObjective :=
  {| Cached.objective := sum_objective;
     Cached.x_cached := None;
     Cached.fval_cached := PyNone;
     Cached.grad_cached := PyNone;
     Cached.grad_has_been_used := false |}.

Definition mute_cache : Cached.CachedObjective :=
  {| Cached.objective := mute_objective;
     Cached.x_cached := None;
     Cached.fval_cached := PyNone;
     Cached.grad_cached := PyNone;
     Cached.grad_has_been_used := false |}.

Definition sum_logger : Logging.LoggingObjective :=
  {| Logging.objective := sum_objective;
     Logging.filename := "calls.pickle";
     Logging.print_idx := true |}.

Definition empty_world : Logging.World :=
  {| Logging.files := ∅; Logging.stderr := [] |}.

(** The world once [sum_logger] is constructed. *)
Definition logging_world : Logging.World :=
  {| Logging.files := {[ "calls.pickle" := [] ]}; Logging.stderr := [] |}.

End Examples.

(** ** The data behind the model selection plots

    [pypesto/visualize/model_selection.py].  The two functions compute
    what they draw and hand it to matplotlib; the embedding is of that
    computation and of what reaches the axes.  A pandas data frame is the
    list of its rows.  [plot_modelselection2] computes with the numbers of
    the dictionaries as they are; [plot_modelselection] stores them in a
    frame of dtype float, so there the numbers are float64 values, taken
    with their conversion, order and subtraction as parameters. *)

Module ModelSelection.

(** A value of a model dictionary: a number or a string. *)
Inductive cell : Type :=
| Num (z : Z)
| Str (s : string).

#[global] Instance cell_eq_dec : EqDecision cell.
Proof. solve_decision. Defined.

Inductive plot_exn : Type :=
| IndexError
| KeyError (key : string)
| TypeError
| UnboundLocalError (name : string).

Inductive result (A : Type) : Type :=
| Ok (a : A)
| Fail (e : plot_exn).
Arguments Ok {A} a.
Arguments Fail {A} e.

Definition and_then {A B} (r : result A) (f : A -> result B) : result B :=
  match r with
  | Ok a => f a
  | Fail e => Fail e
  end.

(** A list comprehension [[f(m) for m in l]]: the first failure ends it. *)
Fixpoint comprehension {A B} (f : A -> result B) (l : list A) : result (list B) :=
  match l with
  | [] => Ok []
  | a :: l' =>
      and_then (f a) (fun b =>
      and_then (comprehension f l') (fun bs => Ok (b :: bs)))
  end.

(** [m[key]] *)
Definition getitem (m : gmap string cell) (key : string) : result cell :=
  match m !! key with
  | Some c => Ok c
  | None => Fail (KeyError key)
  end.

(** [a - b] on dictionary values: numbers only. *)
Definition minus (a b : cell) : result Z :=
  match a, b with
  | Num x, Num y => Ok (x - y)
  | _, _ => Fail TypeError
  end.

(** What the function puts on the axes it returns: the arguments of
    [ax.bar], [set_xticks], [set_ylabel] and [set_xticklabels], and the two
    font sizes.  The y limits come from the ticks that matplotlib chooses
    and are left out. *)
Record Axes : Type := {
  bar_x : list cell;
  bar_height : list Z;
  xticks : list nat;
  ylabel : string;
  ylabel_fontsize : Z;
  xticklabels : list cell;
  ticklabel_fontsize : Z
}.

Section WithConstants.

(** [MODEL_ID] of [pypesto.model_selection.constants], which is not among
    the sources. *)
Variable MODEL_ID : string.

(** [plot_modelselection2].  [figures] counts the figures that
    [plt.subplots] has created; [size] only goes to that call. *)
Definition plot_modelselection2 (selected_models : list (gmap string cell))
    (criterion : string) (relative : bool) (fz : Z) (figures : nat)
  : result Axes * nat :=
  let zero :=
    if relative then
      match last selected_models with
      | None => Fail IndexError
      | Some m => getitem m criterion
      end
    else Ok (Num 0) in
  match zero with
  | Fail e => (Fail e, figures)
  | Ok zero =>
      (and_then (comprehension (fun m => getitem m MODEL_ID) selected_models)
         (fun model_ids =>
       and_then (comprehension
                   (fun m => and_then (getitem m criterion)
                                      (fun c => minus c zero))
                   selected_models)
         (fun criterion_values =>
       and_then (comprehension (fun m => getitem m ("compared_" ++ MODEL_ID))
                   selected_models)
         (fun compared_model_ids =>
       Ok {| bar_x := model_ids;
             bar_height := criterion_values;
             xticks := seq 0 (length model_ids);
             ylabel := criterion ++ (if relative then "(relative)"
                                     else "(absolute)");
             ylabel_fontsize := fz;
             xticklabels := model_ids;
             ticklabel_fontsize := fz - 2 |}))),
       S figures)
  end.

End WithConstants.

(** An entry of [selection_history]: the values under ['AIC'], ['BIC'] and
    [compared_<MODEL_ID>]; [number] is what the dictionary holds. *)
Record HistoryEntry (number : Type) : Type := {
  h_AIC : number;
  h_BIC : number;
  h_compared : string
}.
Arguments h_AIC {number} _.
Arguments h_BIC {number} _.
Arguments h_compared {number} _.

(** A row of the data frame [df], whose numeric columns are float64. *)
Record Row (float64 : Type) : Type := {
  AIC : float64;
  BIC : float64;
  xlabel : string;
  chosen_model : string;
  delta_AIC : float64;
  delta_BIC : float64
}.
Arguments AIC {float64} _.
Arguments BIC {float64} _.
Arguments xlabel {float64} _.
Arguments chosen_model {float64} _.
Arguments delta_AIC {float64} _.
Arguments delta_BIC {float64} _.

(** A row of [df_to_plot]: the cells copied from a row of [df], [None]
    while they are NaN, and the cell of the [xlabel] column, which is also
    assigned as a whole column. *)
Record PlotRow (float64 : Type) : Type := {
  p_data : option (Row float64);
  p_xlabel : option string
}.
Arguments p_data {float64} _.
Arguments p_xlabel {float64} _.

(** What [plot_modelselection] puts on its axes; a height [None] is NaN. *)
Record HistoryAxes (float64 : Type) : Type := {
  h_positions : list nat;
  h_heights : list (option float64);
  h_xticks : list nat;
  h_ylabel : string;
  h_ylabel_fontsize : Z;
  h_xticklabels : list (option string);
  h_ticklabel_fontsize : Z
}.
Arguments h_positions {float64} _.
Arguments h_heights {float64} _.
Arguments h_xticks {float64} _.
Arguments h_ylabel {float64} _.
Arguments h_ylabel_fontsize {float64} _.
Arguments h_xticklabels {float64} _.
Arguments h_ticklabel_fontsize {float64} _.

Section Frame.

(** [INITIAL_VIRTUAL_MODEL] of [pypesto.model_selection.constants]. *)
Variable INITIAL_VIRTUAL_MODEL : string.

(** The numbers of the history and the float64 values of the frame:
    [to_float64] is the conversion made when a number is stored in a
    column of dtype float, [fle] is [<=] and [fsub] is [-] on float64.
    The values are numbers, not NaN. *)
Variable number : Type.
Variable float64 : Type.
Variable to_float64 : number -> float64.
Variable fle : float64 -> float64 -> bool.
Variable fsub : float64 -> float64 -> float64.

(** [column.min()] of a column that is not empty. *)
Definition column_min (first : float64) (others : list float64) : float64 :=
  fold_left (fun least v => if fle least v then least else v) others first.

(** [build_df]: the first loop of [plot_modelselection] and the two delta
    columns.  A data frame is the list of its rows, in index order; the
    minimum of a column of an empty frame is not used. *)
Definition build_df (selection_history : list (string * HistoryEntry number))
  : list (Row float64) :=
  match selection_history with
  | [] => []
  | (_, h0) :: rest =>
      let min_AIC := column_min (to_float64 (h_AIC h0))
                       (map (fun kh => to_float64 (h_AIC (snd kh))) rest) in
      let min_BIC := column_min (to_float64 (h_BIC h0))
                       (map (fun kh => to_float64 (h_BIC (snd kh))) rest) in
      map (fun kh =>
             {| AIC := to_float64 (h_AIC (snd kh));
                BIC := to_float64 (h_BIC (snd kh));
                xlabel := h_compared (snd kh);
                chosen_model := fst kh;
                delta_AIC := fsub (to_float64 (h_AIC (snd kh))) min_AIC;
                delta_BIC := fsub (to_float64 (h_BIC (snd kh))) min_BIC |})
          selection_history
  end.

(** [df[df['xlabel'] == which_model]['AIC'].idxmin()] together with the
    row at that index: the first row of least AIC among those compared
    with [which_model]; [None] when there is no such row. *)
Definition idxmin_AIC (df : list (Row float64)) (which_model : string)
  : option (Row float64) :=
  match filter (fun r => xlabel r = which_model) df with
  | [] => None
  | r0 :: rest =>
      Some (fold_left (fun best r => if fle (AIC best) (AIC r) then best else r)
              rest r0)
  end.

(** The second loop, with [n] iterations left: at each iteration the row
    of least AIC among those compared with [which_model] is copied to
    row [i_m] of [df_to_plot], and the model it chose is followed.  The
    loop stops at a model that nothing was compared with. *)
Fixpoint follow_chain (df : list (Row float64)) (n i_m : nat) (which_model : string)
    (df_to_plot : list (PlotRow float64)) : list (PlotRow float64) :=
  match n with
  | O => df_to_plot
  | S n' =>
      match idxmin_AIC df which_model with
      | None => df_to_plot
      | Some row =>
          let copied := <[ i_m := {| p_data := Some row;
                                     p_xlabel := Some (xlabel row) |} ]> df_to_plot in
          let renamed :=
            if bool_decide (which_model = INITIAL_VIRTUAL_MODEL)
            then map (fun p => {| p_data := p_data p;
                                  p_xlabel := Some "Initial model search" |}) copied
            else copied in
          follow_chain df n' (S i_m) (chosen_model row) renamed
      end
  end.

(** The chain of [if]s that sets [col_to_plot] and rewrites [mode]; [None]
    when no branch assigns [col_to_plot]. *)
Definition choose_column (aic_or_bic mode : string)
  : option ((Row float64 -> float64) * string) :=
  if bool_decide (aic_or_bic = "AIC") then
    if bool_decide (mode = "delta") then Some (delta_AIC, "$\Delta$")
    else if bool_decide (mode = "absolute") then Some (AIC, mode)
    else None
  else if bool_decide (aic_or_bic = "BIC") then
    if bool_decide (mode = "delta") then Some (delta_BIC, "$\Delta$")
    else if bool_decide (mode = "absolute") then Some (BIC, mode)
    else None
  else None.

(** [plot_modelselection].  The unbound [col_to_plot] is met in the call
    of [ax.bar], after the figure is created. *)
Definition plot_modelselection
    (selection_history : list (string * HistoryEntry number))
    (aic_or_bic mode : string) (fz : Z) (figures : nat)
  : result (HistoryAxes float64) * nat :=
  let df := build_df selection_history in
  let nr_models := length (remove_dups (map xlabel df)) in
  let df_to_plot :=
    follow_chain df nr_models 0 INITIAL_VIRTUAL_MODEL
      (replicate nr_models {| p_data := None; p_xlabel := None |}) in
  (match choose_column aic_or_bic mode with
   | None => Fail (UnboundLocalError "col_to_plot")
   | Some (col_to_plot, mode') =>
       Ok {| h_positions := seq 0 nr_models;
             h_heights := map (fun p => col_to_plot <$> p_data p) df_to_plot;
             h_xticks := seq 0 nr_models;
             h_ylabel := mode' ++ " " ++ aic_or_bic;
             h_ylabel_fontsize := fz;
             h_xticklabels := map p_xlabel df_to_plot;
             h_ticklabel_fontsize := fz - 2 |}
   end,
   S figures).

(** The criterion that [aic_or_bic] names, as the history holds it. *)
Definition criterion_of (aic_or_bic : string) (h : HistoryEntry number) : number :=
  if bool_decide (aic_or_bic = "AIC") then h_AIC h else h_BIC h.

(** [least] is the least stored value of a criterion in the history. *)
Definition least_stored (f : HistoryEntry number -> number)
    (selection_history : list (string * HistoryEntry number))
    (least : float64) : Prop :=
  (exists k0, k0 ∈ selection_history /\ least = to_float64 (f (snd k0)))
  /\ forall k, k ∈ selection_history -> fle least (to_float64 (f (snd k))) = true.

End Frame.

Arguments column_min {float64} fle first others.
Arguments build_df {number float64} to_float64 fle fsub selection_history.
Arguments idxmin_AIC {float64} fle df which_model.
Arguments follow_chain INITIAL_VIRTUAL_MODEL {float64} fle df n i_m which_model
  df_to_plot.
Arguments choose_column {float64} aic_or_bic mode.
Arguments plot_modelselection INITIAL_VIRTUAL_MODEL {number float64} to_float64
  fle fsub selection_history aic_or_bic mode fz figures.
Arguments criterion_of {number} aic_or_bic h.
Arguments least_stored {number float64} to_float64 fle f selection_history least.

(** Integers as float64 holds them: below [2^53] in absolute value they
    are exact; above, they are rounded to 53 significant bits, a tie going
    to the even significand.  Overflow to infinity is left out. *)
Definition float64_of_int (z : Z) : Z :=
  let a := Z.abs z in
  if Z.ltb a (2 ^ 53) then z
  else
    let e := Z.log2 a - 52 in
    let q := a / 2 ^ e in
    let r := a mod 2 ^ e in
    let half := 2 ^ (e - 1) in
    let q' := if Z.ltb r half then q
              else if Z.ltb half r then q + 1
              else if Z.even q then q else q + 1 in
    Z.sgn z * (q' * 2 ^ e).

(** The difference of two such values, rounded. *)
Definition float64_sub (a b : Z) : Z := float64_of_int (a - b).


End ModelSelection.

(** ** Example selections *)

Module SelectionExamples.
Import ModelSelection.

Definition model (id : string) (aic : Z) (compared : string) : gmap string cell :=
  {[ "modelId" := Str id; "AIC" := Num aic; "compared_modelId" := Str compared ]}.

(** Three models of a forward selection, the best one last. *)
Definition selected : list (gmap string cell) :=
  [model "M1" 30 "M0"; model "M2" 25 "M1"; model "M3" 21 "M2"].

(** The second model does not say what it was compared with. *)
Definition unlinked : list (gmap string cell) :=
  [model "M1" 30 "M0"; {[ "modelId" := Str "M2"; "AIC" := Num 25 ]}].

Definition entry (aic bic : Z) (compared : string) : HistoryEntry Z :=
  {| h_AIC := aic; h_BIC := bic; h_compared := compared |}.

(** A history: two candidates against the initial model, two against
    [M2], and one against [M1], which the chain does not reach. *)
Definition history : list (string * HistoryEntry Z) :=
  [("M1", entry 30 33 "PYPESTO_INITIAL_MODEL");
   ("M2", entry 28 31 "PYPESTO_INITIAL_MODEL");
   ("M3", entry 25 30 "M2");
   ("M4", entry 27 29 "M2");
   ("M5", entry 40 41 "M1")].

(** What the plots of these examples show. *)
Definition selected_axes : Axes :=
  {| bar_x := [Str "M1"; Str "M2"; Str "M3"];
     bar_height := [9; 4; 0];
     xticks := [0; 1; 2]%nat;
     ylabel := "AIC(relative)";
     ylabel_fontsize := 14;
     xticklabels := [Str "M1"; Str "M2"; Str "M3"];
     ticklabel_fontsize := 12 |}.

(** Two entries whose AIC float64 does not tell apart. *)
Definition close_history : list (string * HistoryEntry Z) :=
  [("A", entry (2 ^ 53 + 1) 10 "PYPESTO_INITIAL_MODEL");
   ("B", entry (2 ^ 53) 12 "A")].

(** [plot_modelselection] on histories of integers. *)
Definition plot_history :=
  plot_modelselection "PYPESTO_INITIAL_MODEL" float64_of_int Z.leb float64_sub.

Definition history_delta_axes : HistoryAxes Z :=
  {| h_positions := [0; 1; 2]%nat;
     h_heights := [Some 3; Some 0; None];
     h_xticks := [0; 1; 2]%nat;
     h_ylabel := "$\Delta$ AIC";
     h_ylabel_fontsize := 14;
     h_xticklabels := [Some "Initial model search"; Some "M2";
                       Some "Initial model search"];
     h_ticklabel_fontsize := 12 |}.

Definition history_absolute_axes : HistoryAxes Z :=
  {| h_positions := [0; 1; 2]%nat;
     h_heights := [Some 28; Some 25; None];
     h_xticks := [0; 1; 2]%nat;
     h_ylabel := "absolute AIC";
     h_ylabel_fontsize := 14;
     h_xticklabels := [Some "Initial model search"; Some "M2";
                       Some "Initial model search"];
     h_ticklabel_fontsize := 12 |}.

Definition close_delta_axes : HistoryAxes Z :=
  {| h_positions := [0; 1]%nat;
     h_heights := [Some 0; Some 0];
     h_xticks := [0; 1]%nat;
     h_ylabel := "$\Delta$ AIC";
     h_ylabel_fontsize := 14;
     h_xticklabels := [Some "Initial model search"; Some "A"];
     h_ticklabel_fontsize := 12 |}.

End SelectionExamples.

(** ** Properties of CachedObjective *)

Module CachedFacts.
Import Cached.

Ltac run := cbv [mbind mret Eff_bind Eff_ret lift raise get_self set_x_cached
  set_fval_cached set_grad_cached set_grad_has_been_used call_objective
  getitem]; cbn [self inner_calls objective x_cached fval_cached grad_cached
  grad_has_been_used fst snd].

Lemma tuple_eqb_refl (t : orders) : tuple_eqb t t = true.
Proof. unfold tuple_eqb. now apply bool_decide_eq_true. Qed.

Lemma array_equal_Some_ne (x y : ndarray) :
  y <> x -> array_equal x (Some y) = false.
Proof. intros H. cbn. apply bool_decide_eq_false. congruence. Qed.

(** A value-only call on a disengaged cache is the inner call, and leaves
    the object as it was. *)
Lemma call_unprocessed_disengaged (x : ndarray) (mode : string) (s : State) :
  x_cached (self s) = None ->
  call_unprocessed x [0] mode s =
    (inner_call_unprocessed (objective (self s)) x [0] mode,
     {| self := self s; inner_calls := inner_calls s ++ [mk_call mode x [0]] |}).
Proof.
  intros Hx. unfold call_unprocessed. run.
  rewrite tuple_eqb_refl, Hx. cbn. reflexivity.
Qed.

(** C7. In a sequence of value-only calls on a cache that has not engaged,
    each call makes one inner call with the same point, orders and mode and
    returns its outcome as it is, and after each prefix of the sequence
    [x_cached] is still [None] (the object is as it was). *)
Theorem value_only_never_caches (mode : string) (xs : list ndarray) (s : State) :
  x_cached (self s) = None ->
  let calls := map (fun x => (x, [0])) xs in
  fst (run_calls mode calls s)
    = map (fun x => inner_call_unprocessed (objective (self s)) x [0] mode) xs
  /\ inner_calls (snd (run_calls mode calls s))
    = inner_calls s ++ map (fun x => mk_call mode x [0]) xs
  /\ forall n, self (snd (run_calls mode (take n calls) s)) = self s
             /\ x_cached (self (snd (run_calls mode (take n calls) s))) = None.
Proof.
  intros Hx calls. subst calls. revert s Hx.
  induction xs as [|x xs IH]; intros s Hx.
  - cbn. rewrite app_nil_r. repeat split; try done.
    all: destruct n; cbn; done.
  - cbn [map run_calls]. rewrite (call_unprocessed_disengaged x mode s Hx).
    set (s1 := {| self := self s; inner_calls := _ |}).
    destruct (IH s1 Hx) as (Hout & Htrace & Hpre).
    destruct (run_calls mode (map (fun x0 => (x0, [0])) xs) s1) as [rs s2] eqn:E.
    cbn [fst snd] in *. split; [|split].
    + f_equal. exact Hout.
    + rewrite Htrace. subst s1. cbn. now rewrite <- app_assoc.
    + intros [|n]; [cbn; done|].
      cbn [take run_calls]. rewrite (call_unprocessed_disengaged x mode s Hx).
      fold s1. specialize (Hpre n).
      destruct (run_calls mode (take n (map (fun x0 => (x0, [0])) xs)) s1).
      exact Hpre.
Qed.

(** The witness: three value-only calls on a new cache over the sum
    objective, the last one outside its domain. *)
Lemma value_only_never_caches_witness :
  let s := start Examples.sum_cache in
  let xs := [[1; 2]; [3; 4]; [-1]] in
  let calls := map (fun x => (x, [0])) xs in
  fst (run_calls MODE_FUN calls s)
    = map (fun x => inner_call_unprocessed (objective (self s)) x [0] MODE_FUN) xs
  /\ inner_calls (snd (run_calls MODE_FUN calls s))
    = inner_calls s ++ map (fun x => mk_call MODE_FUN x [0]) xs
  /\ forall n, self (snd (run_calls MODE_FUN (take n calls) s)) = self s
             /\ x_cached (self (snd (run_calls MODE_FUN (take n calls) s))) = None.
Proof.
  exact (value_only_never_caches MODE_FUN [[1; 2]; [3; 4]; [-1]]
           (start Examples.sum_cache) eq_refl).
Defined.

(** A miss on a value-only request while the cached gradient was never
    handed out: [x_cached] is cleared, then the request is delegated. *)
Lemma call_unprocessed_deactivates (x xc : ndarray) (mode : string) (s : State) :
  x_cached (self s) = Some xc -> xc <> x ->
  grad_has_been_used (self s) = false ->
  call_unprocessed x [0] mode s =
    (inner_call_unprocessed (objective (self s)) x [0] mode,
     {| self := with_x_cached (self s) None;
        inner_calls := inner_calls s ++ [mk_call mode x [0]] |}).
Proof.
  intros Hx Hne Hused. unfold call_unprocessed. run.
  rewrite tuple_eqb_refl, Hx, Hused, (array_equal_Some_ne x xc Hne).
  cbn. reflexivity.
Qed.

(** C9. In the self-deactivation branch the state after the call has
    [x_cached = None] whatever the delegated inner call did, also when it
    raised, and [fval_cached], [grad_cached] and [grad_has_been_used] are
    what they were; the outcome is the inner outcome and one inner call
    was made. *)
Theorem deactivation_clears_before_delegating
    (x xc : ndarray) (mode : string) (s : State) :
  x_cached (self s) = Some xc -> xc <> x ->
  grad_has_been_used (self s) = false ->
  let r := fst (call_unprocessed x [0] mode s) in
  let s' := snd (call_unprocessed x [0] mode s) in
  r = inner_call_unprocessed (objective (self s)) x [0] mode
  /\ x_cached (self s') = None
  /\ fval_cached (self s') = fval_cached (self s)
  /\ grad_cached (self s') = grad_cached (self s)
  /\ grad_has_been_used (self s') = false
  /\ inner_calls s' = inner_calls s ++ [mk_call mode x [0]].
Proof.
  intros Hx Hne Hused r s'. subst r s'.
  rewrite (call_unprocessed_deactivates x xc mode s Hx Hne Hused).
  cbn. rewrite Hused. done.
Qed.

(** The witness: the cache holds [[1; 2]] with an unused gradient, and the
    value-only request at [[-1]] fails in the sum objective. *)
Lemma deactivation_clears_before_delegating_witness :
  let s := snd (run_calls MODE_FUN [([9], [1]); ([1; 2], [0])]
                  (start Examples.sum_cache)) in
  let r := fst (call_unprocessed [-1] [0] MODE_FUN s) in
  let s' := snd (call_unprocessed [-1] [0] MODE_FUN s) in
  (x_cached (self s) = Some [1; 2]
   /\ r = Raised (InnerEvaluationFailure "negative coordinate"))
  /\ r = inner_call_unprocessed (objective (self s)) [-1] [0] MODE_FUN
  /\ x_cached (self s') = None
  /\ fval_cached (self s') = fval_cached (self s)
  /\ grad_cached (self s') = grad_cached (self s)
  /\ grad_has_been_used (self s') = false
  /\ inner_calls s' = inner_calls s ++ [mk_call MODE_FUN [-1] [0]].
Proof.
  split; [split; reflexivity|].
  apply (deactivation_clears_before_delegating [-1] [1; 2] MODE_FUN
           (snd (run_calls MODE_FUN [([9], [1]); ([1; 2], [0])]
                   (start Examples.sum_cache)))).
  - reflexivity.
  - discriminate.
  - reflexivity.
Defined.

(** C6. When the request reaches the repopulation and the joint inner
    call raises, the call raises the same exception and the object is
    exactly what it was: [x_cached], [fval_cached], [grad_cached] and
    [grad_has_been_used] are untouched; the trace has the one failed
    call. *)
Theorem failed_recomputation_keeps_cache
    (x : ndarray) (sensi_orders : orders) (mode : string) (s : State) (e : exn) :
  repopulates (self s) x sensi_orders = true ->
  inner_call_unprocessed (objective (self s)) x [0; 1] mode = Raised e ->
  call_unprocessed x sensi_orders mode s =
    (Raised e,
     {| self := self s;
        inner_calls := inner_calls s ++ [mk_call mode x [0; 1]] |}).
Proof.
  unfold repopulates. intros Hpath Hfail.
  apply andb_true_iff in Hpath as [Hpath H3].
  apply andb_true_iff in Hpath as [H1 H2].
  apply negb_true_iff in H1, H3.
  unfold call_unprocessed. run.
  rewrite H1, H2, H3, Hfail. reflexivity.
Qed.

(** The witness: a gradient request at [[-1]], outside the domain of the
    sum objective, on a cache that holds [[1; 2]]. *)
Lemma failed_recomputation_keeps_cache_witness :
  let s := snd (run_calls MODE_FUN [([1; 2], [0; 1])] (start Examples.sum_cache)) in
  x_cached (self s) = Some [1; 2]
  /\ call_unprocessed [-1] [1] MODE_FUN s =
       (Raised (InnerEvaluationFailure "negative coordinate"),
        {| self := self s;
           inner_calls := inner_calls s ++ [mk_call MODE_FUN [-1] [0; 1]] |}).
Proof.
  split; [reflexivity|].
  apply (failed_recomputation_keeps_cache [-1] [1] MODE_FUN
           (snd (run_calls MODE_FUN [([1; 2], [0; 1])] (start Examples.sum_cache)))).
  - reflexivity.
  - reflexivity.
Defined.

(** No method assigns [self.objective]. *)
Lemma call_unprocessed_objective (x : ndarray) (sensi_orders : orders)
    (mode : string) (s : State) :
  objective (self (snd (call_unprocessed x sensi_orders mode s)))
    = objective (self s).
Proof.
  unfold call_unprocessed, answer_from_cache. run.
  repeat (case_match; simplify_eq; run; cbn; try reflexivity).
Qed.

Lemma run_ops_objective (mode : string) (ops : list op) (s : State) :
  objective (self (run_ops mode ops s)) = objective (self s).
Proof.
  revert s. induction ops as [|o ops IH]; intros s; [reflexivity|].
  cbn [run_ops fold_left]. fold (run_ops mode ops (run_op mode o s)).
  rewrite IH. destruct o as [x so|]; cbn [run_op].
  - apply call_unprocessed_objective.
  - reflexivity.
Qed.

Lemma init_blank (o : ObjectiveBase) (this : CachedObjective) :
  __init__ o = Returned this ->
  this = blank o /\ inner_check_mode o MODE_FUN = true.
Proof.
  unfold __init__. destruct (inner_check_mode o MODE_FUN); cbn; [|discriminate].
  intros [= <-]. done.
Qed.

(** C10. Whatever calls and initializations a constructed cache has gone
    through, [__deepcopy__] returns an object in the state [__init__]
    leaves it in, over the copy of the inner objective: [x_cached] is
    [None], [fval_cached] and [grad_cached] are [None] and
    [grad_has_been_used] is [False]; the original is not assigned to. *)
Theorem deepcopy_is_blank
    (o : ObjectiveBase) (this : CachedObjective) (mode : string) (ops : list op) :
  __init__ o = Returned this ->
  let s := run_ops mode ops (start this) in
  __deepcopy__ s = (Returned (blank (deepcopy_objective o)), s).
Proof.
  intros Hinit s. destruct (init_blank o this Hinit) as [-> Hmode].
  unfold __deepcopy__. run. subst s.
  rewrite run_ops_objective. cbn [start self blank objective].
  unfold __init__, deepcopy_objective. rewrite Hmode. reflexivity.
Qed.

(** The witness: a cache over the sum objective that holds [[3; 4]]. *)
Lemma deepcopy_is_blank_witness :
  let s := run_ops MODE_FUN [Call [1; 2] [1]; Call [3; 4] [0; 1]]
             (start Examples.sum_cache) in
  x_cached (self s) = Some [3; 4]
  /\ __deepcopy__ s
     = (Returned (blank (deepcopy_objective Examples.sum_objective)), s).
Proof.
  split; [reflexivity|].
  exact (deepcopy_is_blank Examples.sum_objective Examples.sum_cache MODE_FUN
           [Call [1; 2] [1]; Call [3; 4] [0; 1]] eq_refl).
Defined.

(** C5, as the code has it. The capability query of the cache for the
    value-only order is the answer of the inner objective to the same
    query, and so is the one for value and gradient jointly; in a mode
    other than [MODE_FUN] both answers are [False]. *)
Theorem check_sensi_orders_delegates (this : CachedObjective) (mode : string) :
  check_sensi_orders this [0] mode
    = Returned (bool_decide (mode = MODE_FUN)
                && inner_check_sensi_orders (objective this) [0] mode)
  /\ check_sensi_orders this [0; 1] mode
    = Returned (bool_decide (mode = MODE_FUN)
                && inner_check_sensi_orders (objective this) [0; 1] mode).
Proof.
  unfold check_sensi_orders. cbn.
  destruct (bool_decide (mode = MODE_FUN)); cbn; done.
Qed.

(** C5, as stated, fails: a cache can be built over an objective that
    runs in [MODE_FUN] and does not advertise the value-only order, and
    then the cache does not advertise it either. *)
Lemma value_order_not_unconditional :
  __init__ Examples.mute_objective = Returned Examples.mute_cache
  /\ check_sensi_orders Examples.mute_cache [0] MODE_FUN <> Returned true.
Proof. split; [reflexivity|discriminate]. Qed.

(** Answering from the cache assigns [grad_has_been_used] only. *)
Lemma answer_from_cache_keeps (sensi_orders : orders) (s : State) :
  let s' := snd (answer_from_cache sensi_orders s) in
  objective (self s') = objective (self s)
  /\ x_cached (self s') = x_cached (self s)
  /\ fval_cached (self s') = fval_cached (self s)
  /\ grad_cached (self s') = grad_cached (self s)
  /\ inner_calls s' = inner_calls s.
Proof.
  unfold answer_from_cache. run.
  repeat (case_match; simplify_eq; run; cbn; try done).
Qed.

(** A request that reaches the repopulation with a complete joint result
    stores the point and both results, then answers from the cache. *)
Lemma call_unprocessed_repopulates (x : ndarray) (sensi_orders : orders)
    (mode : string) (s : State) (r : ResultDict) (fval grad : value) :
  repopulates (self s) x sensi_orders = true ->
  inner_call_unprocessed (objective (self s)) x [0; 1] mode = Returned r ->
  r !! FVAL = Some fval -> r !! GRAD = Some grad ->
  call_unprocessed x sensi_orders mode s =
    answer_from_cache sensi_orders
      {| self := {| objective := objective (self s); x_cached := Some x;
                    fval_cached := fval; grad_cached := grad;
                    grad_has_been_used := false |};
         inner_calls := inner_calls s ++ [mk_call mode x [0; 1]] |}.
Proof.
  unfold repopulates. intros Hpath Hr Hf Hg.
  apply andb_true_iff in Hpath as [Hpath H3].
  apply andb_true_iff in Hpath as [H1 H2].
  apply negb_true_iff in H1, H3.
  unfold call_unprocessed. run.
  rewrite H1, H2, H3, Hr, Hf. cbn. rewrite Hg. reflexivity.
Qed.

(** C1, as the code has it. On a new cache, [(x1, (1,))] followed by
    [(x2, (0,))] with [x2 <> x1], both joint evaluations returning: two
    inner calls are made, both joint; the first call hands out the
    gradient and so marks it used, hence the second call repopulates at
    [x2] and [x_cached] is [x2], with the gradient at [x2] not yet used.
    Caching goes off at the next value-only miss: a third call
    [(x3, (0,))] with [x3 <> x2] clears [x_cached] and makes one
    value-only inner call. *)
Theorem gradient_then_value_repopulates
    (o : ObjectiveBase) (this : CachedObjective) (mode : string)
    (x1 x2 : ndarray) (fval1 grad1 fval2 grad2 : value) :
  __init__ o = Returned this ->
  x2 <> x1 ->
  joint_result o x1 mode fval1 grad1 ->
  joint_result o x2 mode fval2 grad2 ->
  let run2 := run_calls mode [(x1, [1]); (x2, [0])] (start this) in
  fst run2 = [Returned {[ GRAD := grad1 ]}; Returned {[ FVAL := fval2 ]}]
  /\ inner_calls (snd run2) = [mk_call mode x1 [0; 1]; mk_call mode x2 [0; 1]]
  /\ self (snd run2)
     = {| objective := o; x_cached := Some x2; fval_cached := fval2;
          grad_cached := grad2; grad_has_been_used := false |}
  /\ forall x3, x3 <> x2 ->
       let s3 := snd (call_unprocessed x3 [0] mode (snd run2)) in
       x_cached (self s3) = None
       /\ inner_calls s3 = inner_calls (snd run2) ++ [mk_call mode x3 [0]].
Proof.
  intros Hinit Hne (r1 & Hr1 & Hf1 & Hg1 & _) (r2 & Hr2 & Hf2 & Hg2 & _) run2.
  destruct (init_blank o this Hinit) as [-> _].
  assert (E : run2 =
    ([Returned {[ GRAD := grad1 ]}; Returned {[ FVAL := fval2 ]}],
     {| self := {| objective := o; x_cached := Some x2; fval_cached := fval2;
                   grad_cached := grad2; grad_has_been_used := false |};
        inner_calls := [mk_call mode x1 [0; 1]; mk_call mode x2 [0; 1]] |})).
  { subst run2. cbn [run_calls].
    rewrite (call_unprocessed_repopulates x1 [1] mode (start (blank o))
               r1 fval1 grad1 eq_refl Hr1 Hf1 Hg1).
    unfold answer_from_cache at 1. run. 
    change (tuple_eqb [1] [0]) with false. change (tuple_eqb [1] [1]) with true.
    cbv iota. cbn [start blank self objective inner_calls app
                     x_cached fval_cached grad_cached].
    erewrite (call_unprocessed_repopulates x2 [0] mode _ r2 fval2 grad2);
      [| | exact Hr2 | exact Hf2 | exact Hg2].
    - unfold answer_from_cache. run. rewrite tuple_eqb_refl. reflexivity.
    - unfold repopulates. cbn.
      rewrite bool_decide_eq_false_2 by congruence. reflexivity. }
  rewrite E. cbn [fst snd self inner_calls]. repeat split.
  all: intros; erewrite (call_unprocessed_deactivates x3 x2 mode);
    [reflexivity | reflexivity | congruence | reflexivity].
Qed.

(** The witness: the sum objective at [[1; 2]] and [[3; 4]]. *)
Lemma gradient_then_value_repopulates_witness :
  let run2 := run_calls MODE_FUN [([1; 2], [1]); ([3; 4], [0])]
                (start Examples.sum_cache) in
  fst run2 = [Returned {[ GRAD := Vector [1; 1] ]};
              Returned {[ FVAL := Scalar 7 ]}]
  /\ inner_calls (snd run2)
     = [mk_call MODE_FUN [1; 2] [0; 1]; mk_call MODE_FUN [3; 4] [0; 1]]
  /\ self (snd run2)
     = {| objective := Examples.sum_objective; x_cached := Some [3; 4];
          fval_cached := Scalar 7; grad_cached := Vector [1; 1];
          grad_has_been_used := false |}
  /\ forall x3, x3 <> [3; 4] ->
       let s3 := snd (call_unprocessed x3 [0] MODE_FUN (snd run2)) in
       x_cached (self s3) = None
       /\ inner_calls s3 = inner_calls (snd run2) ++ [mk_call MODE_FUN x3 [0]].
Proof.
  apply (gradient_then_value_repopulates Examples.sum_objective
           Examples.sum_cache MODE_FUN [1; 2] [3; 4]
           (Scalar 3) (Vector [1; 1]) (Scalar 7) (Vector [1; 1])).
  - reflexivity.
  - discriminate.
  - eexists. repeat split; try reflexivity; discriminate.
  - eexists. repeat split; try reflexivity; discriminate.
Defined.

(** C1, as stated, fails: after the two calls on the sum objective
    [x_cached] is [[3; 4]], not [None]. *)
Lemma gradient_then_value_keeps_caching :
  let s2 := snd (run_calls MODE_FUN [([1; 2], [1]); ([3; 4], [0])]
                   (start Examples.sum_cache)) in
  [3; 4] <> [1; 2]
  /\ ~ (length (inner_calls s2) = 2%nat /\ x_cached (self s2) = None).
Proof.
  split; [discriminate|]. intros [_ H]. vm_compute in H. discriminate.
Qed.

(** The invariant reads the inner objective and the three cache
    attributes only. *)
Lemma cache_invariant_same_cache (mode : string) (a b : CachedObjective) :
  objective b = objective a -> x_cached b = x_cached a ->
  fval_cached b = fval_cached a -> grad_cached b = grad_cached a ->
  cache_invariant mode a -> cache_invariant mode b.
Proof.
  unfold cache_invariant. intros -> -> -> -> H. exact H.
Qed.

(** One call keeps the invariant. *)
Lemma call_unprocessed_invariant (x : ndarray) (sensi_orders : orders)
    (mode : string) (s : State) :
  joint_complete (objective (self s)) ->
  cache_invariant mode (self s) ->
  cache_invariant mode (self (snd (call_unprocessed x sensi_orders mode s))).
Proof.
  intros Hcomplete Hinv.
  unfold call_unprocessed. run.
  destruct (tuple_eqb sensi_orders [0] && bool_decide (x_cached (self s) = None));
    [exact Hinv|].
  destruct (array_equal x (x_cached (self s))) eqn:Hhit; cbn [negb].
  - destruct (answer_from_cache_keeps sensi_orders s) as (Ho & Hx & Hf & Hg & _).
    now apply (cache_invariant_same_cache mode (self s)).
  - destruct (tuple_eqb sensi_orders [0] && negb (grad_has_been_used (self s))).
    + cbn. intros y [=].
    + destruct (inner_call_unprocessed (objective (self s)) x [0; 1] mode)
        as [r|e] eqn:Hr; [|exact Hinv].
      destruct (Hcomplete x mode r Hr) as (fval & grad & Hf & Hg & Hfn & Hgn).
      rewrite Hf. run. rewrite Hg. run.
      match goal with |- context [answer_from_cache _ ?s1] =>
        destruct (answer_from_cache_keeps sensi_orders s1) as (Ho' & Hx' & Hf' & Hg' & _);
        apply (cache_invariant_same_cache mode (self s1)); try assumption
      end.
      intros y [= <-]. cbn. exists r. done.
Qed.

Lemma run_ops_invariant (mode : string) (ops : list op) (s : State) :
  joint_complete (objective (self s)) ->
  cache_invariant mode (self s) ->
  cache_invariant mode (self (run_ops mode ops s)).
Proof.
  revert s. induction ops as [|o ops IH]; intros s Hcomplete Hinv; [exact Hinv|].
  cbn [run_ops fold_left]. fold (run_ops mode ops (run_op mode o s)).
  destruct o as [x so|]; cbn [run_op]; apply IH.
  - now rewrite call_unprocessed_objective.
  - now apply call_unprocessed_invariant.
  - exact Hcomplete.
  - intros y [=].
Qed.

Lemma sum_objective_joint_complete : joint_complete Examples.sum_objective.
Proof.
  intros x mode r. cbn. unfold Examples.sum_call.
  destruct (forallb (Z.leb 0) x); [|discriminate].
  change (tuple_eqb [0; 1] [0]) with false.
  change (tuple_eqb [0; 1] [1]) with false.
  intros [= <-]. eexists _, _. repeat split; done.
Qed.

(** C2, as stated, fails: after a gradient call and two value-only misses
    the cache has turned itself off, [x_cached] is [None], and
    [fval_cached] and [grad_cached] still hold the results at [[3; 4]]. *)
Lemma stale_results_after_deactivation :
  let s := run_ops MODE_FUN [Call [1; 2] [1]; Call [3; 4] [0]; Call [5; 6] [0]]
             (start Examples.sum_cache) in
  (x_cached (self s) = None
   /\ fval_cached (self s) = Scalar 7
   /\ grad_cached (self s) = Vector [1; 1])
  /\ ~ invariant_as_specified MODE_FUN (self s).
Proof.
  split; [repeat split; reflexivity|].
  intros [[H _] _]. apply H; [split; discriminate | reflexivity].
Qed.

(** A request that [check_sensi_orders] accepts goes on to
    [call_unprocessed]. *)
Lemma evaluate_supported
    (x : ndarray) (sensi_orders : orders) (mode : string) (s : State) :
  check_sensi_orders (self s) sensi_orders mode = Returned true ->
  evaluate x sensi_orders mode s = call_unprocessed x sensi_orders mode s.
Proof.
  intros Hok. unfold evaluate. run. rewrite Hok. reflexivity.
Qed.

(** A request whose highest order exceeds one is refused by
    [check_sensi_orders], so [evaluate] raises and nothing else runs. *)
Lemma evaluate_rejects_orders_above_one
    (x : ndarray) (sensi_orders : orders) (mode : string) (s : State) (m : Z) :
  tuple_max sensi_orders = Some m -> m > 1 ->
  evaluate x sensi_orders mode s = (Raised UnsupportedOrder, s).
Proof.
  intros Hmax Hm. unfold evaluate, check_sensi_orders. run.
  rewrite Hmax, bool_decide_eq_true_2 by exact Hm. reflexivity.
Qed.

(** C4, the code at the failing inputs. For [(1, 0)] and for [(0, -1)],
    neither of which is [(0,)], [(1,)] or [(0, 1)], the capability check
    of a new cache over the sum objective answers [True]; [evaluate]
    then runs the cache logic, which makes the joint inner call, assigns
    [x_cached], [fval_cached] and [grad_cached], and fails at its [assert]. *)
Theorem unsupported_orders_reach_the_cache :
  let s := start Examples.sum_cache in
  let s' := {| self := {| objective := Examples.sum_objective;
                          x_cached := Some [1; 2];
                          fval_cached := Scalar 3;
                          grad_cached := Vector [1; 1];
                          grad_has_been_used := false |};
               inner_calls := [mk_call MODE_FUN [1; 2] [0; 1]] |} in
  check_sensi_orders Examples.sum_cache [1; 0] MODE_FUN = Returned true
  /\ call_unprocessed [1; 2] [1; 0] MODE_FUN s = (Raised AssertionError, s')
  /\ evaluate [1; 2] [1; 0] MODE_FUN s = (Raised AssertionError, s')
  /\ check_sensi_orders Examples.sum_cache [0; -1] MODE_FUN = Returned true
  /\ call_unprocessed [1; 2] [0; -1] MODE_FUN s = (Raised AssertionError, s')
  /\ evaluate [1; 2] [0; -1] MODE_FUN s = (Raised AssertionError, s').
Proof. repeat split; reflexivity. Qed.

End CachedFacts.

(** ** Properties of LoggingObjective *)

Module LoggingFacts.
Import Logging.

Ltac run := cbv [mbind mret Eff_bind Eff_ret lift raise load dump remove
  exists_ print_stderr after_call]; cbn [files stderr fst snd].

(** The three exit paths of a call that finds the log file. *)
Lemma call_unprocessed_paths (this : LoggingObjective) (x : ndarray)
    (sensi_orders : orders) (mode : string) (w : World) (log : list LogEntry) :
  files w !! filename this = Some log ->
  call_unprocessed this x sensi_orders mode w =
    match inner_call_unprocessed (objective this) x sensi_orders mode with
    | Raised err =>
        (Raised err,
         after_call this w log (log ++ [entry_err x sensi_orders mode err]))
    | Returned retval =>
        match retval !! "fval" with
        | None => (Raised (KeyError "fval"), after_call this w log log)
        | Some fval =>
            (Returned retval,
             after_call this w log (log ++ [entry_fval x sensi_orders mode fval]))
        end
    end.
Proof.
  intros Hfile. unfold call_unprocessed. run. rewrite Hfile.
  destruct (print_idx this); cbn;
    destruct (inner_call_unprocessed (objective this) x sensi_orders mode) as [r|e];
    try reflexivity; destruct (r !! "fval"); reflexivity.
Qed.

(** C8. When the log file is there and the inner evaluation raises [e],
    the call raises [e] itself, and the file then holds the log it held
    before followed by one record whose fields are the request, [x],
    [sensi_orders] and [mode], the failure, [err = e], and no value.  On
    the returning path the file is written as well: it holds the former
    log followed by one record with the request, the value under ['fval']
    and no failure.  On every path the file is rewritten. *)
Theorem failure_is_logged_then_reraised
    (this : LoggingObjective) (x : ndarray) (sensi_orders : orders)
    (mode : string) (w : World) (log : list LogEntry) :
  files w !! filename this = Some log ->
  let out := call_unprocessed this x sensi_orders mode w in
  (forall e, inner_call_unprocessed (objective this) x sensi_orders mode = Raised e ->
     exists record,
       out = (Raised e, after_call this w log (log ++ [record]))
       /\ files (snd out) !! filename this = Some (log ++ [record])
       /\ log_x record = x
       /\ log_sensi_orders record = sensi_orders
       /\ log_mode record = mode
       /\ log_err record = Some e
       /\ log_fval record = None)
  /\ (forall retval fval,
       inner_call_unprocessed (objective this) x sensi_orders mode = Returned retval ->
       retval !! "fval" = Some fval ->
       exists record,
         out = (Returned retval, after_call this w log (log ++ [record]))
         /\ files (snd out) !! filename this = Some (log ++ [record])
         /\ log_x record = x
         /\ log_sensi_orders record = sensi_orders
         /\ log_mode record = mode
         /\ log_err record = None
         /\ log_fval record = Some fval)
  /\ exists log', files (snd out) = <[ filename this := log' ]> (files w).
Proof.
  intros Hfile out. subst out.
  rewrite (call_unprocessed_paths this x sensi_orders mode w log Hfile).
  split; [|split].
  - intros e ->. exists (entry_err x sensi_orders mode e). cbn.
    rewrite lookup_insert_eq. repeat split.
  - intros retval fval -> ->. exists (entry_fval x sensi_orders mode fval). cbn.
    rewrite lookup_insert_eq. repeat split.
  - destruct (inner_call_unprocessed (objective this) x sensi_orders mode) as [r|e];
      [destruct (r !! "fval")|]; cbn; eauto.
Qed.

(** The witness: the sum logger on its new log, at [[-1]] where the sum
    objective fails and at [[1; 2]] where it returns. *)
Lemma failure_is_logged_then_reraised_witness :
  let e := InnerEvaluationFailure "negative coordinate" in
  (exists record,
     call_unprocessed Examples.sum_logger [-1] [0] MODE_FUN Examples.logging_world
       = (Raised e,
          {| files := {[ "calls.pickle" := [record] ]}; stderr := [0%nat] |})
     /\ record = {| log_x := [-1]; log_sensi_orders := [0]; log_mode := MODE_FUN;
                    log_fval := None; log_err := Some e |})
  /\ (exists record,
       call_unprocessed Examples.sum_logger [1; 2] [0] MODE_FUN Examples.logging_world
         = (Returned {[ FVAL := Scalar 3 ]},
            {| files := {[ "calls.pickle" := [record] ]}; stderr := [0%nat] |})
       /\ record = {| log_x := [1; 2]; log_sensi_orders := [0]; log_mode := MODE_FUN;
                      log_fval := Some (Scalar 3); log_err := None |}).
Proof.
  split.
  - destruct (failure_is_logged_then_reraised Examples.sum_logger [-1] [0]
                MODE_FUN Examples.logging_world [] eq_refl) as (Hfail & _ & _).
    destruct (Hfail _ eq_refl) as (record & Hout & _ & Hx & Hso & Hm & He & Hf).
    exists record. split.
    + rewrite Hout. reflexivity.
    + destruct record. cbn in *. subst. reflexivity.
  - destruct (failure_is_logged_then_reraised Examples.sum_logger [1; 2] [0]
                MODE_FUN Examples.logging_world [] eq_refl) as (_ & Hok & _).
    destruct (Hok _ (Scalar 3) eq_refl eq_refl)
      as (record & Hout & _ & Hx & Hso & Hm & He & Hf).
    exists record. split.
    + rewrite Hout. reflexivity.
    + destruct record. cbn in *. subst. reflexivity.
Defined.

(** What does hold of the log length: calls whose inner outcome is a
    failure or carries ['fval'] add one entry each. *)
Lemma run_calls_log_length (this : LoggingObjective) (mode : string)
    (calls : list (ndarray * orders)) (w : World) (log : list LogEntry) :
  files w !! filename this = Some log ->
  forallb (loggable (objective this) mode) calls = true ->
  exists log', files (snd (run_calls this mode calls w)) !! filename this = Some log'
               /\ length log' = (length log + length calls)%nat.
Proof.
  revert w log. induction calls as [|[x so] calls IH]; intros w log Hfile Hall.
  - exists log. cbn. split; [exact Hfile|lia].
  - cbn [forallb] in Hall. apply andb_true_iff in Hall as [Hc Hall].
    cbn [run_calls]. rewrite (call_unprocessed_paths this x so mode w log Hfile).
    unfold loggable in Hc. cbn [fst snd] in Hc.
    destruct (inner_call_unprocessed (objective this) x so mode) as [r|e].
    + destruct (r !! "fval") as [fval|] eqn:Hf;
        [|apply bool_decide_eq_true in Hc; destruct Hc; discriminate].
      destruct (IH (after_call this w log (log ++ [entry_fval x so mode fval]))
                  (log ++ [entry_fval x so mode fval])) as (log' & Hl & Hlen);
        [apply lookup_insert_eq|exact Hall|].
      destruct (run_calls this mode calls _) as [rs w2]. cbn [snd] in *.
      exists log'. split; [exact Hl|]. rewrite Hlen, length_app. cbn. lia.
    + destruct (IH (after_call this w log (log ++ [entry_err x so mode e]))
                  (log ++ [entry_err x so mode e])) as (log' & Hl & Hlen);
        [apply lookup_insert_eq|exact Hall|].
      destruct (run_calls this mode calls _) as [rs w2]. cbn [snd] in *.
      exists log'. split; [exact Hl|]. rewrite Hlen, length_app. cbn. lia.
Qed.

(** C3, the code at the failing input. The sum logger is constructed with
    [reset] on an empty file system; one gradient-only call, for which the
    sum objective returns a result without ['fval'] (as
    [CachedObjective.call_unprocessed] does for [(1,)]), raises [KeyError]
    from the [else] clause, and the log that is dumped has no entry: its
    length is 0 after 1 call. *)
Theorem gradient_call_is_not_logged :
  __init__ Examples.sum_objective "calls.pickle" true true Examples.empty_world
    = (Returned Examples.sum_logger, Examples.logging_world)
  /\ inner_call_unprocessed Examples.sum_objective [1; 2] [1] MODE_FUN
    = Returned {[ GRAD := Vector [1; 1] ]}
  /\ fst (Cached.call_unprocessed [1; 2] [1] MODE_FUN
            (Cached.start Examples.sum_cache))
    = Returned {[ GRAD := Vector [1; 1] ]}
  /\ run_calls Examples.sum_logger MODE_FUN [([1; 2], [1])] Examples.logging_world
    = ([Raised (KeyError "fval")],
       {| files := {[ "calls.pickle" := [] ]}; stderr := [0%nat] |}).
Proof. repeat split; reflexivity. Qed.

End LoggingFacts.

(** ** Further properties of CachedObjective *)

Module CachedMore.
Import Cached CachedFacts.

Ltac run := cbv [mbind mret Eff_bind Eff_ret lift raise get_self set_x_cached
  set_fval_cached set_grad_cached set_grad_has_been_used call_objective
  getitem]; cbn [self inner_calls objective x_cached fval_cached grad_cached
  grad_has_been_used fst snd].

Lemma array_equal_Some_eq (x : ndarray) : array_equal x (Some x) = true.
Proof. cbn. now apply bool_decide_eq_true. Qed.

(** A request at the cached point is answered from the cache. *)
Lemma call_unprocessed_hit (x : ndarray) (mode : string) (s : State) :
  x_cached (self s) = Some x ->
  let used := {| self := {| objective := objective (self s);
                            x_cached := Some x;
                            fval_cached := fval_cached (self s);
                            grad_cached := grad_cached (self s);
                            grad_has_been_used := true |};
                 inner_calls := inner_calls s |} in
  call_unprocessed x [0] mode s
    = (Returned {[ FVAL := fval_cached (self s) ]}, s)
  /\ call_unprocessed x [1] mode s
    = (Returned {[ GRAD := grad_cached (self s) ]}, used)
  /\ call_unprocessed x [0; 1] mode s
    = (Returned (<[ FVAL := fval_cached (self s) ]>
                   {[ GRAD := grad_cached (self s) ]}), used).
Proof.
  intros Hx used. subst used. destruct s as [[o xc f g u] tr]. cbn in Hx. subst xc.
  unfold call_unprocessed, answer_from_cache. run.
  rewrite array_equal_Some_eq. repeat split.
Qed.

(** X1. A request at the cached point, for one of the three supported
    order tuples, makes no inner call and is answered with the cached
    results; a request that includes the gradient sets
    [grad_has_been_used], and nothing else is assigned. *)
Theorem hit_answers_from_cache (x : ndarray) (mode : string) (s : State) :
  x_cached (self s) = Some x ->
  let used := {| self := {| objective := objective (self s);
                            x_cached := Some x;
                            fval_cached := fval_cached (self s);
                            grad_cached := grad_cached (self s);
                            grad_has_been_used := true |};
                 inner_calls := inner_calls s |} in
  call_unprocessed x [0] mode s
    = (Returned {[ FVAL := fval_cached (self s) ]}, s)
  /\ call_unprocessed x [1] mode s
    = (Returned {[ GRAD := grad_cached (self s) ]}, used)
  /\ call_unprocessed x [0; 1] mode s
    = (Returned (<[ FVAL := fval_cached (self s) ]>
                   {[ GRAD := grad_cached (self s) ]}), used).
Proof. exact (call_unprocessed_hit x mode s). Qed.

(** The witness: the spec's scenario, a joint request at [[1; 2]] followed
    by a gradient request at the same point; one inner call in all. *)
Lemma hit_answers_from_cache_witness :
  let s := snd (call_unprocessed [1; 2] [0; 1] MODE_FUN (start Examples.sum_cache)) in
  call_unprocessed [1; 2] [1] MODE_FUN s
    = (Returned {[ GRAD := Vector [1; 1] ]}, s)
  /\ inner_calls s = [mk_call MODE_FUN [1; 2] [0; 1]].
Proof.
  split; [|reflexivity].
  destruct (hit_answers_from_cache [1; 2] MODE_FUN
              (snd (call_unprocessed [1; 2] [0; 1] MODE_FUN
                      (start Examples.sum_cache))) eq_refl) as (_ & H & _).
  exact H.
Defined.

(** X2. Whatever the request and the state, [call_unprocessed] makes at
    most one inner call; that call is at the requested point and mode, and
    its orders are [(0,)], only for a value-only request, or [(0, 1)].
    The inner objective is never asked for the gradient alone. *)
Theorem at_most_one_inner_call
    (x : ndarray) (sensi_orders : orders) (mode : string) (s : State) :
  let s' := snd (call_unprocessed x sensi_orders mode s) in
  inner_calls s' = inner_calls s
  \/ (sensi_orders = [0] /\ inner_calls s' = inner_calls s ++ [mk_call mode x [0]])
  \/ inner_calls s' = inner_calls s ++ [mk_call mode x [0; 1]].
Proof.
  cbn zeta. unfold call_unprocessed. run.
  destruct (tuple_eqb sensi_orders [0]) eqn:H0.
  - apply bool_decide_eq_true in H0. subst sensi_orders.
    repeat (case_match; simplify_eq; run; cbn; auto);
      match goal with
      | |- context [answer_from_cache ?so ?s1] =>
          destruct (CachedFacts.answer_from_cache_keeps so s1) as (_ & _ & _ & _ & ->);
          cbn; auto
      end.
  - cbn [andb].
    repeat (case_match; simplify_eq; run; cbn; auto);
      match goal with
      | |- context [answer_from_cache ?so ?s1] =>
          destruct (CachedFacts.answer_from_cache_keeps so s1) as (_ & _ & _ & _ & ->);
          cbn; auto
      end.
Qed.

(** The trace is only appended to: a call on a state with trace [tr] does
    what it does on the empty trace. *)
Lemma answer_from_cache_trace (sensi_orders : orders)
    (this : CachedObjective) (tr : list InnerCall) :
  answer_from_cache sensi_orders {| self := this; inner_calls := tr |}
  = (fst (answer_from_cache sensi_orders (start this)),
     {| self := self (snd (answer_from_cache sensi_orders (start this)));
        inner_calls := tr |}).
Proof.
  unfold answer_from_cache, start. run.
  repeat (case_match; simplify_eq; run; cbn; try reflexivity).
Qed.

Lemma call_unprocessed_trace (x : ndarray) (sensi_orders : orders) (mode : string)
    (this : CachedObjective) (tr : list InnerCall) :
  call_unprocessed x sensi_orders mode {| self := this; inner_calls := tr |}
  = (fst (call_unprocessed x sensi_orders mode (start this)),
     {| self := self (snd (call_unprocessed x sensi_orders mode (start this)));
        inner_calls :=
          tr ++ inner_calls (snd (call_unprocessed x sensi_orders mode (start this))) |}).
Proof.
  unfold call_unprocessed, answer_from_cache, start. run. cbn.
  repeat (case_match; simplify_eq; run; cbn;
          rewrite ?app_nil_r; try reflexivity).
Qed.

Lemma run_calls_trace (mode : string) (calls : list (ndarray * orders))
    (this : CachedObjective) (tr : list InnerCall) :
  run_calls mode calls {| self := this; inner_calls := tr |}
  = (fst (run_calls mode calls (start this)),
     {| self := self (snd (run_calls mode calls (start this)));
        inner_calls := tr ++ inner_calls (snd (run_calls mode calls (start this))) |}).
Proof.
  revert this tr. induction calls as [|[x so] calls IH]; intros this tr.
  - cbn. now rewrite app_nil_r.
  - cbn [run_calls]. rewrite (call_unprocessed_trace x so mode this tr).
    destruct (call_unprocessed x so mode (start this)) as [r [this1 tr1]].
    cbn [fst snd self inner_calls].
    rewrite (IH this1 (tr ++ tr1)), (IH this1 tr1).
    destruct (run_calls mode calls (start this1)) as [rs [this2 tr2]].
    cbn. now rewrite app_assoc.
Qed.

Lemma same_view_refl (a : CachedObjective) : same_view a a.
Proof. repeat split. Qed.

(** Two objects with the same view answer a request alike, make the same
    inner call and have the same view afterwards. *)
Lemma same_view_step (a b : CachedObjective) (x : ndarray)
    (sensi_orders : orders) (mode : string) :
  same_view a b -> joint_complete (objective a) ->
  let ra := call_unprocessed x sensi_orders mode (start a) in
  let rb := call_unprocessed x sensi_orders mode (start b) in
  fst ra = fst rb
  /\ inner_calls (snd ra) = inner_calls (snd rb)
  /\ same_view (self (snd ra)) (self (snd rb)).
Proof.
  intros (Ho & Hx & Hrest) Hcomplete.
  destruct a as [o xa fa ga ua], b as [ob xb fb gb ub]. cbn in Ho, Hx, Hrest, Hcomplete.
  subst ob xb. destruct xa as [y|].
  - destruct Hrest as (-> & -> & ->); [discriminate|].
    cbn zeta. repeat split.
  - cbn zeta. clear Hrest.
    unfold call_unprocessed, start. run.
    cbv beta iota delta [self objective x_cached fval_cached grad_cached
      grad_has_been_used inner_calls fst snd array_equal negb app].
    rewrite bool_decide_eq_true_2 by reflexivity.
    rewrite !andb_true_r.
    destruct (tuple_eqb sensi_orders [0]) eqn:H0.
    { cbn. repeat split; cbn in *; congruence. }
    cbn [andb].
    destruct (inner_call_unprocessed o x [0; 1] mode) as [r|e] eqn:Hr.
    2:{ cbn. repeat split; cbn in *; congruence. }
    destruct (Hcomplete x mode r Hr) as (f & g & Hf & Hg & _).
    rewrite Hf. run. rewrite Hg. run.
    rewrite !answer_from_cache_trace. cbn. repeat split.
Qed.

Lemma same_view_run_calls (mode : string) (calls : list (ndarray * orders))
    (a b : CachedObjective) :
  same_view a b -> joint_complete (objective a) ->
  let ra := run_calls mode calls (start a) in
  let rb := run_calls mode calls (start b) in
  fst ra = fst rb
  /\ inner_calls (snd ra) = inner_calls (snd rb)
  /\ same_view (self (snd ra)) (self (snd rb)).
Proof.
  revert a b. induction calls as [|[x so] calls IH]; intros a b Hv Hc.
  - cbn. split; [reflexivity|split; [reflexivity|exact Hv]].
  - cbn zeta. cbn [run_calls].
    destruct (same_view_step a b x so mode Hv Hc) as (Hr & Ht & Hv').
    assert (Ho : objective (self (snd (call_unprocessed x so mode (start a))))
                 = objective a) by apply call_unprocessed_objective.
    destruct (call_unprocessed x so mode (start a)) as [r1 [a1 t1]].
    destruct (call_unprocessed x so mode (start b)) as [r2 [b1 t2]].
    cbn [fst snd self inner_calls] in *. subst r2 t2.
    rewrite (run_calls_trace mode calls a1 t1), (run_calls_trace mode calls b1 t1).
    rewrite <- Ho in Hc.
    destruct (IH a1 b1 Hv' Hc) as (Hrs & Hts & Hvs).
    cbn [fst snd self inner_calls]. rewrite Hrs, Hts.
    split; [reflexivity|split; [reflexivity|exact Hvs]].
Qed.

(** X4. A cache whose [x_cached] is [None], whatever its other attributes
    hold (also the stale results that self-deactivation leaves), answers
    any sequence of requests as a newly constructed cache over the same
    objective does, with the same inner calls, and ends with the same
    view; the joint evaluations of the objective are complete. *)
Theorem disengaged_cache_behaves_as_new
    (mode : string) (calls : list (ndarray * orders)) (s : State) :
  x_cached (self s) = None ->
  joint_complete (objective (self s)) ->
  let old := run_calls mode calls s in
  let new := run_calls mode calls (start (blank (objective (self s)))) in
  fst old = fst new
  /\ inner_calls (snd old) = inner_calls s ++ inner_calls (snd new)
  /\ same_view (self (snd old)) (self (snd new)).
Proof.
  intros Hx Hc. destruct s as [a tr]. cbn [self inner_calls] in *.
  cbn zeta. rewrite (run_calls_trace mode calls a tr). cbn [fst snd self inner_calls].
  assert (Hv : same_view a (blank (objective a))).
  { repeat split; cbn in *; congruence. }
  destruct (same_view_run_calls mode calls a _ Hv Hc) as (H1 & H2 & H3).
  rewrite H1, H2. split; [reflexivity|split; [reflexivity|exact H3]].
Qed.

(** The witness: the sum cache after it has turned itself off, still
    holding the results at [[3; 4]]. *)
Lemma disengaged_cache_behaves_as_new_witness :
  let s := snd (run_calls MODE_FUN [([1; 2], [1]); ([3; 4], [0]); ([5; 6], [0])]
                  (start Examples.sum_cache)) in
  let calls := [([3; 4], [0]); ([3; 4], [1]); ([-1], [0; 1]); ([3; 4], [0; 1])] in
  let old := run_calls MODE_FUN calls s in
  let new := run_calls MODE_FUN calls (start (blank (objective (self s)))) in
  (fval_cached (self s) = Scalar 7 /\ length (inner_calls s) = 3%nat)
  /\ fst old = fst new
  /\ inner_calls (snd old) = inner_calls s ++ inner_calls (snd new)
  /\ same_view (self (snd old)) (self (snd new)).
Proof.
  split; [split; reflexivity|].
  apply (disengaged_cache_behaves_as_new MODE_FUN
           [([3; 4], [0]); ([3; 4], [1]); ([-1], [0; 1]); ([3; 4], [0; 1])]
           (snd (run_calls MODE_FUN [([1; 2], [1]); ([3; 4], [0]); ([5; 6], [0])]
                   (start Examples.sum_cache)))).
  - reflexivity.
  - exact sum_objective_joint_complete.
Defined.

(** X5. After [initialize], any sequence of requests gets the answers it
    gets from a newly constructed cache over the same objective, leaves
    the same object and makes the same inner calls. *)
Theorem initialize_gives_new_cache
    (mode : string) (calls : list (ndarray * orders)) (s : State) :
  let s0 := snd (initialize s) in
  let old := run_calls mode calls s0 in
  let new := run_calls mode calls (start (blank (objective (self s)))) in
  fst old = fst new
  /\ self (snd old) = self (snd new)
  /\ inner_calls (snd old) = inner_calls s ++ inner_calls (snd new).
Proof.
  destruct s as [a tr]. cbn zeta.
  change (snd (initialize {| self := a; inner_calls := tr |}))
    with {| self := blank (objective a); inner_calls := tr |}.
  rewrite (run_calls_trace mode calls (blank (objective a)) tr). repeat split.
Qed.

(** What a returned answer is made of, for a state that keeps the
    invariant. *)
Lemma answers_step (x : ndarray) (sensi_orders : orders) (mode : string)
    (s : State) (r : ResultDict) :
  joint_complete (objective (self s)) ->
  cache_invariant mode (self s) ->
  fst (call_unprocessed x sensi_orders mode s) = Returned r ->
  (sensi_orders = [0]
   /\ (inner_call_unprocessed (objective (self s)) x [0] mode = Returned r
       \/ exists fval grad, joint_result (objective (self s)) x mode fval grad
                            /\ r = {[ FVAL := fval ]}))
  \/ (sensi_orders = [1]
      /\ exists fval grad, joint_result (objective (self s)) x mode fval grad
                           /\ r = {[ GRAD := grad ]})
  \/ (sensi_orders = [0; 1]
      /\ exists fval grad, joint_result (objective (self s)) x mode fval grad
                           /\ r = <[ FVAL := fval ]> {[ GRAD := grad ]}).
Proof.
  intros Hcomplete Hinv.
  assert (Hans : forall s1 f g,
    joint_result (objective (self s)) x mode f g ->
    fval_cached (self s1) = f -> grad_cached (self s1) = g ->
    fst (answer_from_cache sensi_orders s1) = Returned r ->
    (sensi_orders = [0]
     /\ (inner_call_unprocessed (objective (self s)) x [0] mode = Returned r
         \/ exists fval grad, joint_result (objective (self s)) x mode fval grad
                              /\ r = {[ FVAL := fval ]}))
    \/ (sensi_orders = [1]
        /\ exists fval grad, joint_result (objective (self s)) x mode fval grad
                             /\ r = {[ GRAD := grad ]})
    \/ (sensi_orders = [0; 1]
        /\ exists fval grad, joint_result (objective (self s)) x mode fval grad
                             /\ r = <[ FVAL := fval ]> {[ GRAD := grad ]})).
  { intros s1 f g Hj Hf Hg. unfold answer_from_cache. run.
    destruct (tuple_eqb sensi_orders [0]) eqn:H0;
      [apply bool_decide_eq_true in H0; cbn; intros [= <-]; left; split; [exact H0|];
       right; exists f, g; subst; split; [exact Hj|reflexivity]|].
    destruct (tuple_eqb sensi_orders [1]) eqn:H1;
      [apply bool_decide_eq_true in H1; cbn; intros [= <-]; right; left;
       split; [exact H1|]; exists f, g; subst; split; [exact Hj|reflexivity]|].
    destruct (tuple_eqb sensi_orders [0; 1]) eqn:H2; [|cbn; discriminate].
    apply bool_decide_eq_true in H2; cbn; intros [= <-]; right; right;
      split; [exact H2|]; exists f, g; subst; split; [exact Hj|reflexivity]. }
  unfold call_unprocessed. run.
  destruct (tuple_eqb sensi_orders [0] && bool_decide (x_cached (self s) = None)) eqn:Hd.
  { apply andb_true_iff in Hd as [H0 _]. apply bool_decide_eq_true in H0. subst.
    cbn. intros ->. left. split; [reflexivity|left; reflexivity]. }
  destruct (array_equal x (x_cached (self s))) eqn:Hhit; cbn [negb].
  - destruct (x_cached (self s)) as [y|] eqn:Hx; [|discriminate].
    cbn in Hhit. apply bool_decide_eq_true in Hhit. subst y.
    apply (Hans s _ _ (Hinv x Hx) eq_refl eq_refl).
  - destruct (tuple_eqb sensi_orders [0] && negb (grad_has_been_used (self s))) eqn:Hoff.
    { apply andb_true_iff in Hoff as [H0 _]. apply bool_decide_eq_true in H0. subst.
      cbn. intros ->. left. split; [reflexivity|left; reflexivity]. }
    destruct (inner_call_unprocessed (objective (self s)) x [0; 1] mode)
      as [r'|e] eqn:Hr; [|cbn; discriminate].
    destruct (Hcomplete x mode r' Hr) as (f & g & Hf & Hg & Hfn & Hgn).
    rewrite Hf. run. rewrite Hg. run.
    apply Hans with (f := f) (g := g); [|reflexivity|reflexivity].
    exists r'. done.
Qed.

(** X3. Whenever a request to a constructed cache returns, after any calls
    and initializations, the orders were [(0,)], [(1,)] or [(0, 1)] and
    the answer is built from the inner objective's results at the
    requested point: the value and the gradient of its joint evaluation
    there, or, for a value-only request, possibly its value-only result
    as it is.  The joint evaluations of the objective are complete. *)
Theorem answers_are_inner_results
    (o : ObjectiveBase) (this : CachedObjective) (mode : string) (ops : list op)
    (x : ndarray) (sensi_orders : orders) (r : ResultDict) :
  __init__ o = Returned this ->
  joint_complete o ->
  fst (call_unprocessed x sensi_orders mode (run_ops mode ops (start this)))
    = Returned r ->
  (sensi_orders = [0]
   /\ (inner_call_unprocessed o x [0] mode = Returned r
       \/ exists fval grad, joint_result o x mode fval grad
                            /\ r = {[ FVAL := fval ]}))
  \/ (sensi_orders = [1]
      /\ exists fval grad, joint_result o x mode fval grad
                           /\ r = {[ GRAD := grad ]})
  \/ (sensi_orders = [0; 1]
      /\ exists fval grad, joint_result o x mode fval grad
                           /\ r = <[ FVAL := fval ]> {[ GRAD := grad ]}).
Proof.
  intros Hinit Hcomplete Hret.
  destruct (init_blank o this Hinit) as [-> _].
  assert (Ho : objective (self (run_ops mode ops (start (blank o)))) = o)
    by (rewrite run_ops_objective; reflexivity).
  pose proof (answers_step x sensi_orders mode
                (run_ops mode ops (start (blank o))) r) as H.
  rewrite Ho in H. apply H; [exact Hcomplete| |exact Hret].
  apply run_ops_invariant; [exact Hcomplete|]. intros y [=].
Qed.

(** The witness: a joint request at [[3; 4]], answered from the cache. *)
Lemma answers_are_inner_results_witness :
  let ops := [Call [1; 2] [1]; Call [3; 4] [0]] in
  fst (call_unprocessed [3; 4] [0; 1] MODE_FUN
         (run_ops MODE_FUN ops (start Examples.sum_cache)))
    = Returned (<[ FVAL := Scalar 7 ]> {[ GRAD := Vector [1; 1] ]})
  /\ exists fval grad,
       joint_result Examples.sum_objective [3; 4] MODE_FUN fval grad
       /\ <[ FVAL := Scalar 7 ]> {[ GRAD := Vector [1; 1] ]}
          = (<[ FVAL := fval ]> {[ GRAD := grad ]} : ResultDict).
Proof.
  split; [reflexivity|].
  destruct (answers_are_inner_results Examples.sum_objective Examples.sum_cache
              MODE_FUN [Call [1; 2] [1]; Call [3; 4] [0]] [3; 4] [0; 1]
              (<[ FVAL := Scalar 7 ]> {[ GRAD := Vector [1; 1] ]})
              eq_refl sum_objective_joint_complete eq_refl)
    as [[H _]|[[H _]|[_ H]]]; [discriminate H|discriminate H|exact H].
Defined.


(** X6. When the joint result of a repopulation has no ['fval'], the call
    raises [KeyError] after [x_cached] has been assigned: [fval_cached],
    [grad_cached] and [grad_has_been_used] are those of the former
    point.  A following request at [x] is a hit, makes no inner call and
    is answered with the former results. *)
Theorem missing_value_leaves_stale_cache
    (x : ndarray) (sensi_orders : orders) (mode : string) (s : State)
    (r : ResultDict) :
  repopulates (self s) x sensi_orders = true ->
  inner_call_unprocessed (objective (self s)) x [0; 1] mode = Returned r ->
  r !! FVAL = None ->
  let s' := {| self := with_x_cached (self s) (Some x);
               inner_calls := inner_calls s ++ [mk_call mode x [0; 1]] |} in
  call_unprocessed x sensi_orders mode s = (Raised (KeyError FVAL), s')
  /\ fst (call_unprocessed x [0; 1] mode s')
     = Returned (<[ FVAL := fval_cached (self s) ]>
                   {[ GRAD := grad_cached (self s) ]})
  /\ inner_calls (snd (call_unprocessed x [0; 1] mode s')) = inner_calls s'.
Proof.
  intros Hpath Hr Hf s'. unfold repopulates in Hpath.
  apply andb_true_iff in Hpath as [Hpath H3].
  apply andb_true_iff in Hpath as [H1 H2].
  apply negb_true_iff in H1, H3.
  split.
  - unfold call_unprocessed. run.
    rewrite H1, H2, H3, Hr, Hf. reflexivity.
  - destruct (call_unprocessed_hit x mode s' eq_refl) as (_ & _ & ->).
    split; reflexivity.
Qed.

(** The witness: a new cache over the objective that answers with the
    gradient alone. *)
Lemma missing_value_leaves_stale_cache_witness :
  let o := Examples.gradient_only_objective in
  let s := start (blank o) in
  let s' := {| self := with_x_cached (self s) (Some [1; 2]);
               inner_calls := [mk_call MODE_FUN [1; 2] [0; 1]] |} in
  call_unprocessed [1; 2] [1] MODE_FUN s = (Raised (KeyError FVAL), s')
  /\ fst (call_unprocessed [1; 2] [0; 1] MODE_FUN s')
     = Returned (<[ FVAL := PyNone ]> {[ GRAD := PyNone ]})
  /\ inner_calls (snd (call_unprocessed [1; 2] [0; 1] MODE_FUN s')) = inner_calls s'.
Proof.
  exact (missing_value_leaves_stale_cache [1; 2] [1] MODE_FUN
           (start (blank Examples.gradient_only_objective))
           {[ GRAD := Vector [1; 1] ]} eq_refl eq_refl eq_refl).
Defined.

(** The maximum of a tuple is at most [b] when each element is. *)
Lemma fold_left_max_le (t : orders) (z b : Z) :
  fold_left Z.max t z <= b <-> z <= b /\ Forall (fun y => y <= b) t.
Proof.
  revert z. induction t as [|y t IH]; intros z; cbn.
  - split; [intros H; split; [exact H|constructor]|intros [H _]; exact H].
  - rewrite IH. rewrite Forall_cons. split.
    + intros [H1 H2]. repeat split; [lia|lia|exact H2].
    + intros [H1 [H2 H3]]. split; [lia|exact H3].
Qed.

(** X7. [check_sensi_orders] answers [True] exactly for a non-empty tuple
    of orders, none above 1, in [MODE_FUN], that the inner objective
    supports; it raises [ValueError] exactly on the empty tuple.  So the
    cache never advertises what the inner objective does not. *)
Theorem check_sensi_orders_true_iff
    (this : CachedObjective) (sensi_orders : orders) (mode : string) :
  (check_sensi_orders this sensi_orders mode = Returned true
   <-> sensi_orders <> []
       /\ Forall (fun z => z <= 1) sensi_orders
       /\ mode = MODE_FUN
       /\ inner_check_sensi_orders (objective this) sensi_orders mode = true)
  /\ (check_sensi_orders this sensi_orders mode = Raised ValueError
      <-> sensi_orders = []).
Proof.
  unfold check_sensi_orders. destruct sensi_orders as [|z t]; cbn [tuple_max].
  - split; split; try done. intros [H _]. done.
  - split; [|split; intros H; discriminate H || destruct (bool_decide _ || _); discriminate H].
    destruct (bool_decide (fold_left Z.max t z > 1)) eqn:Hmax;
      [apply bool_decide_eq_true in Hmax | apply bool_decide_eq_false in Hmax];
      cbn [orb].
    + split; [discriminate|]. intros (_ & Hall & _). exfalso.
      apply Forall_cons in Hall as [Hz Ht].
      assert (fold_left Z.max t z <= 1) by (apply fold_left_max_le; done). lia.
    + assert (Hle : fold_left Z.max t z <= 1) by lia.
      apply fold_left_max_le in Hle as [Hz Ht].
      destruct (bool_decide (mode = MODE_FUN)) eqn:Hm;
        [apply bool_decide_eq_true in Hm | apply bool_decide_eq_false in Hm]; cbn [negb].
      * split; [intros [= ->]; repeat split; try done; now constructor|].
        intros (_ & _ & _ & ->). reflexivity.
      * split; [discriminate|]. intros (_ & _ & Hm' & _). done.
Qed.

(** X8. [__init__] returns exactly when the inner objective supports
    [MODE_FUN] and raises [NotImplementedError] otherwise; a constructed
    cache accepts, by [check_mode], only a mode that its inner objective
    accepts. *)
Theorem constructed_cache_modes (o : ObjectiveBase) :
  (inner_check_mode o MODE_FUN = true -> __init__ o = Returned (blank o))
  /\ (inner_check_mode o MODE_FUN = false -> __init__ o = Raised NotImplementedError)
  /\ forall this mode,
       __init__ o = Returned this -> check_mode this mode = true ->
       inner_check_mode (objective this) mode = true.
Proof.
  unfold __init__, check_mode. split; [|split].
  - intros ->. reflexivity.
  - intros ->. reflexivity.
  - intros this mode. destruct (inner_check_mode o MODE_FUN) eqn:Hm; cbn; [|discriminate].
    intros [= <-] Hmode. apply bool_decide_eq_true in Hmode. subst mode. exact Hm.
Qed.

(** The witness: the sum objective supports [MODE_FUN]; the cache over it
    accepts that mode. *)
Lemma constructed_cache_modes_witness :
  __init__ Examples.sum_objective = Returned (blank Examples.sum_objective)
  /\ inner_check_mode (objective Examples.sum_cache) MODE_FUN = true.
Proof.
  destruct (constructed_cache_modes Examples.sum_objective) as (Hok & _ & Hmode).
  split.
  - exact (Hok eq_refl).
  - exact (Hmode Examples.sum_cache MODE_FUN eq_refl eq_refl).
Defined.

(** Value-only requests on a disengaged cache: the state afterwards and
    the outcomes. *)
Lemma run_calls_disengaged (mode : string) (xs : list ndarray) (s : State) :
  x_cached (self s) = None ->
  snd (run_calls mode (map (fun x => (x, [0])) xs) s)
  = {| self := self s;
       inner_calls := inner_calls s ++ map (fun x => mk_call mode x [0]) xs |}.
Proof.
  revert s. induction xs as [|x xs IH]; intros s Hx.
  - cbn. rewrite app_nil_r. now destruct s.
  - cbn [map run_calls]. rewrite (call_unprocessed_disengaged x mode s Hx).
    specialize (IH {| self := self s;
                      inner_calls := inner_calls s ++ [mk_call mode x [0]] |} Hx).
    destruct (run_calls mode _ _) as [rs s2]. cbn [snd] in *. rewrite IH.
    cbn. now rewrite <- app_assoc.
Qed.

Lemma value_only_outcomes (mode : string) (xs : list ndarray) (s : State) :
  x_cached (self s) = None ->
  fst (run_calls mode (map (fun x => (x, [0])) xs) s)
  = map (fun x => inner_call_unprocessed (objective (self s)) x [0] mode) xs.
Proof.
  revert s. induction xs as [|x xs IH]; intros s Hx; [reflexivity|].
  cbn [map run_calls]. rewrite (call_unprocessed_disengaged x mode s Hx).
  specialize (IH {| self := self s;
                    inner_calls := inner_calls s ++ [mk_call mode x [0]] |} Hx).
  destruct (run_calls mode _ _) as [rs s2]. cbn [fst] in *. now rewrite IH.
Qed.

(** X21. On a cache that is engaged and whose gradient has been used, the
    pattern value-then-gradient over points that each differ from the
    one before costs one inner call per point, the joint evaluation: the
    value request repopulates and the gradient request hits.  Both
    answers come from that evaluation, and the cache ends engaged at the
    last point with its gradient used. *)
Theorem one_joint_call_per_point
    (mode : string) (xs : list ndarray) (y : ndarray) (s : State) :
  x_cached (self s) = Some y ->
  grad_has_been_used (self s) = true ->
  adjacent_distinct y xs ->
  Forall (fun x => exists fval grad,
            joint_result (objective (self s)) x mode fval grad) xs ->
  let out := run_calls mode (value_then_gradient xs) s in
  inner_calls (snd out)
    = inner_calls s ++ map (fun x => mk_call mode x [0; 1]) xs
  /\ Forall2 (fun call r =>
               exists fval grad,
                 joint_result (objective (self s)) (fst call) mode fval grad
                 /\ r = Returned (if bool_decide (snd call = [0])
                                  then {[ FVAL := fval ]}
                                  else {[ GRAD := grad ]}))
       (value_then_gradient xs) (fst out)
  /\ x_cached (self (snd out)) = Some (default y (last xs))
  /\ grad_has_been_used (self (snd out)) = true.
Proof.
  revert y s. induction xs as [|x xs IH]; intros y s Hx Hused Hdist Hjoint.
  - cbn. rewrite app_nil_r. repeat split; [constructor|exact Hx|exact Hused].
  - destruct Hdist as [Hne Hdist].
    apply Forall_cons in Hjoint as [(f & g & Hj) Hjoint].
    destruct Hj as (r & Hr & Hf & Hg & Hfn & Hgn).
    set (s2 := {| self := {| objective := objective (self s); x_cached := Some x;
                             fval_cached := f; grad_cached := g;
                             grad_has_been_used := true |};
                  inner_calls := inner_calls s ++ [mk_call mode x [0; 1]] |}).
    assert (Hstep : run_calls mode (value_then_gradient (x :: xs)) s
              = (Returned {[ FVAL := f ]} :: Returned {[ GRAD := g ]}
                   :: fst (run_calls mode (value_then_gradient xs) s2),
                 snd (run_calls mode (value_then_gradient xs) s2))).
    { unfold value_then_gradient. cbn [flat_map app run_calls].
      fold (value_then_gradient xs).
      erewrite (call_unprocessed_repopulates x [0] mode s r f g);
        [| |exact Hr|exact Hf|exact Hg].
      2:{ unfold repopulates. rewrite Hx, Hused. cbn.
          rewrite bool_decide_eq_false_2 by congruence. reflexivity. }
      unfold answer_from_cache at 1. run.
      rewrite tuple_eqb_refl. cbv iota.
      match goal with |- context [call_unprocessed x [1] mode ?s1] =>
        destruct (call_unprocessed_hit x mode s1 eq_refl) as (_ & -> & _)
      end.
      cbn [self objective x_cached fval_cached grad_cached inner_calls].
      fold s2. destruct (run_calls mode (value_then_gradient xs) s2).
      reflexivity. }
    cbn zeta. rewrite Hstep. cbn [fst snd].
    specialize (IH x s2 eq_refl eq_refl Hdist Hjoint). cbn zeta in IH.
    destruct IH as (Htr & Hrs & Hxc & Hu).
    split; [rewrite Htr; subst s2; cbn; now rewrite <- app_assoc|].
    split; [|split; [|exact Hu]].
    + unfold value_then_gradient. cbn [flat_map app]. fold (value_then_gradient xs).
      constructor; [exists f, g; split; [exists r; done|reflexivity]|].
      constructor; [exists f, g; split; [exists r; done|reflexivity]|].
      exact Hrs.
    + rewrite Hxc, last_cons. destruct (last xs); reflexivity.
Qed.

(** The witness: three points after a joint request at [[0]]. *)
Lemma one_joint_call_per_point_witness :
  let s := snd (run_calls MODE_FUN [([0], [0; 1])] (start Examples.sum_cache)) in
  let out := run_calls MODE_FUN (value_then_gradient [[1; 2]; [3; 4]; [5]]) s in
  inner_calls (snd out)
    = inner_calls s ++ map (fun x => mk_call MODE_FUN x [0; 1]) [[1; 2]; [3; 4]; [5]]
  /\ Forall2 (fun call r =>
               exists fval grad,
                 joint_result (objective (self s)) (fst call) MODE_FUN fval grad
                 /\ r = Returned (if bool_decide (snd call = [0])
                                  then {[ FVAL := fval ]}
                                  else {[ GRAD := grad ]}))
       (value_then_gradient [[1; 2]; [3; 4]; [5]]) (fst out)
  /\ x_cached (self (snd out)) = Some (default [0] (last [[1; 2]; [3; 4]; [5]]))
  /\ grad_has_been_used (self (snd out)) = true.
Proof.
  apply (one_joint_call_per_point MODE_FUN [[1; 2]; [3; 4]; [5]] [0]
           (snd (run_calls MODE_FUN [([0], [0; 1])] (start Examples.sum_cache)))).
  - reflexivity.
  - reflexivity.
  - cbn. repeat split; discriminate.
  - repeat constructor; eexists _, _, _; repeat split; try reflexivity; discriminate.
Defined.

(** X22. When an engaged cache whose gradient has been used meets a stream
    of value-only requests, the first request, at a new point, is
    answered by one more joint evaluation; the second, at yet another
    point, turns caching off; from then on every request is one
    value-only inner call.  One gradient is computed in vain. *)
Theorem value_stream_wastes_one_gradient
    (mode : string) (x x' y : ndarray) (rest : list ndarray) (s : State)
    (fval grad : value) :
  x_cached (self s) = Some y ->
  grad_has_been_used (self s) = true ->
  y <> x -> x <> x' ->
  joint_result (objective (self s)) x mode fval grad ->
  let out := run_calls mode (map (fun p => (p, [0])) (x :: x' :: rest)) s in
  inner_calls (snd out)
    = inner_calls s ++ mk_call mode x [0; 1]
        :: map (fun p => mk_call mode p [0]) (x' :: rest)
  /\ x_cached (self (snd out)) = None
  /\ fst out
     = Returned {[ FVAL := fval ]}
         :: map (fun p => inner_call_unprocessed (objective (self s)) p [0] mode)
              (x' :: rest).
Proof.
  intros Hx Hused Hne Hne' (r & Hr & Hf & Hg & _).
  assert (E : run_calls mode (map (fun p => (p, [0])) (x :: x' :: rest)) s
    = (Returned {[ FVAL := fval ]}
         :: map (fun p => inner_call_unprocessed (objective (self s)) p [0] mode)
              (x' :: rest),
       {| self := {| objective := objective (self s); x_cached := None;
                     fval_cached := fval; grad_cached := grad;
                     grad_has_been_used := false |};
          inner_calls := inner_calls s ++ mk_call mode x [0; 1]
            :: map (fun p => mk_call mode p [0]) (x' :: rest) |})).
  { cbn [map run_calls].
    erewrite (call_unprocessed_repopulates x [0] mode s r fval grad);
      [| |exact Hr|exact Hf|exact Hg].
    2:{ unfold repopulates. rewrite Hx, Hused. cbn.
        rewrite bool_decide_eq_false_2 by congruence. reflexivity. }
    unfold answer_from_cache at 1. run. rewrite tuple_eqb_refl. cbv iota.
    erewrite (call_unprocessed_deactivates x' x mode);
      [|reflexivity|exact Hne'|reflexivity].
    cbn [self objective x_cached fval_cached grad_cached grad_has_been_used
         inner_calls with_x_cached].
    match goal with |- context [run_calls mode _ ?s2] =>
      pose proof (run_calls_disengaged mode rest s2 eq_refl) as Hsnd;
      pose proof (value_only_outcomes mode rest s2 eq_refl) as Hfst;
      destruct (run_calls mode (map (fun p => (p, [0])) rest) s2) as [rs s3]
    end.
    cbn [fst snd self objective inner_calls] in *. subst rs s3.
    rewrite <- !app_assoc. reflexivity. }
  cbn zeta. rewrite E. repeat split.
Qed.

(** The witness: after a joint request at [[0]], values at [[1; 2]],
    [[3; 4]], [[3; 4]] again and [[-1]], where the objective fails. *)
Lemma value_stream_wastes_one_gradient_witness :
  let s := snd (run_calls MODE_FUN [([0], [0; 1])] (start Examples.sum_cache)) in
  let out := run_calls MODE_FUN
               (map (fun p => (p, [0])) [[1; 2]; [3; 4]; [3; 4]; [-1]]) s in
  inner_calls (snd out)
    = inner_calls s ++ mk_call MODE_FUN [1; 2] [0; 1]
        :: map (fun p => mk_call MODE_FUN p [0]) [[3; 4]; [3; 4]; [-1]]
  /\ x_cached (self (snd out)) = None
  /\ fst out
     = Returned {[ FVAL := Scalar 3 ]}
         :: map (fun p => inner_call_unprocessed (objective (self s)) p [0] MODE_FUN)
              [[3; 4]; [3; 4]; [-1]].
Proof.
  apply (value_stream_wastes_one_gradient MODE_FUN [1; 2] [3; 4] [0]
           [[3; 4]; [-1]]
           (snd (run_calls MODE_FUN [([0], [0; 1])] (start Examples.sum_cache)))
           (Scalar 3) (Vector [1; 1])).
  - reflexivity.
  - reflexivity.
  - discriminate.
  - discriminate.
  - eexists. repeat split; try reflexivity; discriminate.
Defined.

(** More modes only widen what [stored_results] allows. *)
Lemma stored_results_more_modes (modes modes' : list string) (this : CachedObjective) :
  (forall m, m ∈ modes -> m ∈ modes') ->
  stored_results modes this -> stored_results modes' this.
Proof.
  unfold stored_results. intros Hsub. destruct (x_cached this) as [x|].
  - intros (m & Hm & Hj). exists m. split; [now apply Hsub|exact Hj].
  - intros [H|(x' & m & Hm & Hj)]; [now left|].
    right. exists x', m. split; [now apply Hsub|exact Hj].
Qed.

(** [stored_results] reads the inner objective and the three cache
    attributes only. *)
Lemma stored_results_same_cache (modes : list string) (a b : CachedObjective) :
  objective b = objective a -> x_cached b = x_cached a ->
  fval_cached b = fval_cached a -> grad_cached b = grad_cached a ->
  stored_results modes a -> stored_results modes b.
Proof.
  unfold stored_results. intros -> -> -> -> H. exact H.
Qed.

(** One request keeps [stored_results], its mode added. *)
Lemma call_unprocessed_stored_results (x : ndarray) (sensi_orders : orders)
    (mode : string) (modes : list string) (s : State) :
  joint_complete (objective (self s)) ->
  stored_results modes (self s) ->
  stored_results (modes ++ [mode])
    (self (snd (call_unprocessed x sensi_orders mode s))).
Proof.
  intros Hcomplete Hinv.
  assert (Hwide : stored_results (modes ++ [mode]) (self s)).
  { eapply stored_results_more_modes; [|exact Hinv].
    intros m Hm. apply elem_of_app. now left. }
  unfold call_unprocessed. run.
  destruct (tuple_eqb sensi_orders [0] && bool_decide (x_cached (self s) = None));
    [exact Hwide|].
  destruct (array_equal x (x_cached (self s))) eqn:Hhit; cbn [negb].
  - destruct (answer_from_cache_keeps sensi_orders s) as (Ho & Hx & Hf & Hg & _).
    now apply (stored_results_same_cache _ (self s)).
  - destruct (tuple_eqb sensi_orders [0] && negb (grad_has_been_used (self s))).
    + cbn. unfold stored_results in *. cbn.
      destruct (x_cached (self s)) as [y|].
      * destruct Hwide as (m & Hm & Hj). right. now exists y, m.
      * exact Hwide.
    + destruct (inner_call_unprocessed (objective (self s)) x [0; 1] mode)
        as [r|e] eqn:Hr; [|exact Hwide].
      destruct (Hcomplete x mode r Hr) as (fval & grad & Hf & Hg & Hfn & Hgn).
      rewrite Hf. run. rewrite Hg. run.
      match goal with |- context [answer_from_cache _ ?s1] =>
        destruct (answer_from_cache_keeps sensi_orders s1) as (Ho' & Hx' & Hf' & Hg' & _);
        apply (stored_results_same_cache _ (self s1)); try assumption
      end.
      unfold stored_results. cbn. exists mode. split.
      * apply elem_of_app. right. apply elem_of_cons. now left.
      * exists r. done.
Qed.

(** No event assigns [self.objective]. *)
Lemma run_events_objective (events : list event) (s : State) :
  objective (self (run_events events s)) = objective (self s).
Proof.
  revert s. induction events as [|e events IH]; intros s; [reflexivity|].
  cbn [run_events fold_left]. fold (run_events events (run_event e s)).
  rewrite IH. destruct e as [x so m|]; cbn [run_event].
  - apply call_unprocessed_objective.
  - reflexivity.
Qed.

(** Events keep [stored_results], their modes added. *)
Lemma run_events_stored_results (events : list event) (modes : list string)
    (s : State) :
  joint_complete (objective (self s)) ->
  stored_results modes (self s) ->
  stored_results (modes ++ event_modes events) (self (run_events events s)).
Proof.
  revert modes s. induction events as [|e events IH]; intros modes s Hcomplete Hinv.
  - cbn. now rewrite app_nil_r.
  - cbn [run_events fold_left event_modes flat_map].
    fold (run_events events (run_event e s)). fold (event_modes events).
    destruct e as [x so m|]; cbn [run_event].
    + rewrite app_assoc. apply IH.
      * now rewrite call_unprocessed_objective.
      * now apply call_unprocessed_stored_results.
    + cbn [app]. apply IH; [exact Hcomplete|]. unfold stored_results. cbn. now left.
Qed.

(** A request that leaves [x_cached] empty has assigned neither
    [fval_cached] nor [grad_cached]. *)
Lemma empty_after_call_keeps_results (x : ndarray) (sensi_orders : orders)
    (mode : string) (s : State) :
  x_cached (self (snd (call_unprocessed x sensi_orders mode s))) = None ->
  fval_cached (self (snd (call_unprocessed x sensi_orders mode s)))
    = fval_cached (self s)
  /\ grad_cached (self (snd (call_unprocessed x sensi_orders mode s)))
    = grad_cached (self s).
Proof.
  unfold call_unprocessed. run.
  destruct (tuple_eqb sensi_orders [0] && bool_decide (x_cached (self s) = None));
    [done|].
  destruct (array_equal x (x_cached (self s))) eqn:Hhit; cbn [negb].
  - destruct (answer_from_cache_keeps sensi_orders s) as (_ & _ & Hf & Hg & _). done.
  - destruct (tuple_eqb sensi_orders [0] && negb (grad_has_been_used (self s)));
      [done|].
    destruct (inner_call_unprocessed (objective (self s)) x [0; 1] mode) as [r|e];
      [|done].
    destruct (r !! FVAL) as [fval|]; run; [|cbn; discriminate].
    destruct (r !! GRAD) as [grad|]; run; [|cbn; discriminate].
    match goal with |- context [answer_from_cache _ ?s1] =>
      destruct (answer_from_cache_keeps sensi_orders s1) as (_ & Hx' & _)
    end.
    rewrite Hx'. cbn. discriminate.
Qed.

(** The trace only grows: the events do not read it. *)
Lemma observe_trace (events : list event) (this : CachedObjective)
    (tr : list InnerCall) :
  observe events {| self := this; inner_calls := tr |}
  = (fst (observe events (start this)),
     {| self := self (snd (observe events (start this)));
        inner_calls := tr ++ inner_calls (snd (observe events (start this))) |}).
Proof.
  revert this tr. induction events as [|[x so mode|] events IH]; intros this tr.
  - cbn. now rewrite app_nil_r.
  - cbn [observe]. rewrite (call_unprocessed_trace x so mode this tr).
    destruct (call_unprocessed x so mode (start this)) as [r [this1 tr1]].
    cbn [fst snd self inner_calls].
    rewrite (IH this1 (tr ++ tr1)), (IH this1 tr1).
    destruct (observe events (start this1)) as [rs [this2 tr2]].
    cbn. now rewrite app_assoc.
  - cbn [observe]. exact (IH (blank (objective this)) tr).
Qed.

(** Two objects with the same view go through the same events alike. *)
Lemma same_view_observe (events : list event) (a b : CachedObjective) :
  same_view a b -> joint_complete (objective a) ->
  let ra := observe events (start a) in
  let rb := observe events (start b) in
  fst ra = fst rb
  /\ inner_calls (snd ra) = inner_calls (snd rb)
  /\ same_view (self (snd ra)) (self (snd rb)).
Proof.
  revert a b. induction events as [|[x so mode|] events IH]; intros a b Hv Hc.
  - cbn. split; [reflexivity|split; [reflexivity|exact Hv]].
  - cbn zeta. cbn [observe].
    destruct (same_view_step a b x so mode Hv Hc) as (Hr & Ht & Hv').
    assert (Ho : objective (self (snd (call_unprocessed x so mode (start a))))
                 = objective a) by apply call_unprocessed_objective.
    destruct (call_unprocessed x so mode (start a)) as [r1 [a1 t1]].
    destruct (call_unprocessed x so mode (start b)) as [r2 [b1 t2]].
    cbn [fst snd self inner_calls] in *. subst r2 t2.
    rewrite (observe_trace events a1 t1), (observe_trace events b1 t1).
    rewrite <- Ho in Hc.
    destruct (IH a1 b1 Hv' Hc) as (Hrs & Hts & Hvs).
    cbn [fst snd self inner_calls]. rewrite Hrs, Hts.
    split; [reflexivity|split; [reflexivity|exact Hvs]].
  - cbn zeta. cbn [observe].
    change (snd (initialize (start a))) with (start (blank (objective a))).
    change (snd (initialize (start b))) with (start (blank (objective b))).
    destruct Hv as (Ho & _). rewrite <- Ho. split; [reflexivity|].
    split; [reflexivity|]. apply same_view_refl.
Qed.

(** C2, as the code has it. Between the requests, each in its own mode,
    and the initializations of a constructed cache over an objective
    whose joint evaluations are complete:
    - whenever [x_cached] is set, [fval_cached] and [grad_cached] are
      defined and are the two results of the joint inner evaluation at
      [x_cached], in the mode of one of the requests made;
    - while [x_cached] is [None], they are both [None] or they are still
      the two results of a joint inner evaluation at some point;
    - a request that leaves [x_cached] empty assigns neither of them, so
      self-deactivation keeps the results of the last population;
    - in that state they are never read: whatever requests, each in its
      own mode, and initializations follow, the requests are answered as
      by a newly constructed cache, with the same inner calls. *)
Theorem cache_invariant_holds
    (o : ObjectiveBase) (this : CachedObjective) (events : list event) :
  __init__ o = Returned this ->
  joint_complete o ->
  let s := run_events events (start this) in
  let modes := event_modes events in
  (forall x, x_cached (self s) = Some x ->
     exists mode, mode ∈ modes
       /\ joint_result o x mode (fval_cached (self s)) (grad_cached (self s)))
  /\ (x_cached (self s) = None ->
      (fval_cached (self s) = PyNone /\ grad_cached (self s) = PyNone)
      \/ exists x' mode, mode ∈ modes
           /\ joint_result o x' mode (fval_cached (self s)) (grad_cached (self s)))
  /\ (forall x sensi_orders mode,
        let s' := snd (call_unprocessed x sensi_orders mode s) in
        x_cached (self s') = None ->
        fval_cached (self s') = fval_cached (self s)
        /\ grad_cached (self s') = grad_cached (self s))
  /\ (x_cached (self s) = None ->
      forall later,
        fst (observe later s) = fst (observe later (start (blank o)))
        /\ inner_calls (snd (observe later s))
           = inner_calls s ++ inner_calls (snd (observe later (start (blank o))))).
Proof.
  intros Hinit Hcomplete s modes.
  destruct (init_blank o this Hinit) as [-> _].
  assert (Ho : objective (self s) = o)
    by (subst s; now rewrite run_events_objective).
  assert (Hinv : stored_results modes (self s)).
  { subst s modes.
    apply (run_events_stored_results events [] (start (blank o)) Hcomplete).
    unfold stored_results. cbn. now left. }
  unfold stored_results in Hinv. rewrite Ho in Hinv.
  split; [|split; [|split]].
  - intros x Hx. rewrite Hx in Hinv. exact Hinv.
  - intros Hx. rewrite Hx in Hinv. exact Hinv.
  - intros x so mode. apply empty_after_call_keeps_results.
  - intros Hx later.
    assert (Hv : same_view (self s) (blank o)).
    { repeat split; cbn in *; congruence. }
    assert (Hc : joint_complete (objective (self s))) by now rewrite Ho.
    destruct (same_view_observe later (self s) (blank o) Hv Hc) as (H1 & H2 & _).
    destruct s as [a tr]. cbn [self inner_calls] in *.
    rewrite (observe_trace later a tr). cbn [fst snd inner_calls].
    rewrite H1, H2. split; reflexivity.
Qed.

(** The witness: the sum objective, with a hit, requests in two modes and
    an [initialize]; at the end the cache has turned itself off and
    still holds the results at [[6]]. *)
Lemma cache_invariant_holds_witness :
  let events := [Evaluate [1; 2] [1] MODE_FUN; Evaluate [1; 2] [0] MODE_FUN;
                 Evaluate [3; 4] [0] "mode_res"; Reinitialize;
                 Evaluate [5] [0; 1] MODE_FUN; Evaluate [6] [0] "mode_res";
                 Evaluate [7] [0] MODE_FUN] in
  let o := Examples.sum_objective in
  let s := run_events events (start Examples.sum_cache) in
  let modes := event_modes events in
  (x_cached (self s) = None /\ fval_cached (self s) = Scalar 6
   /\ grad_cached (self s) = Vector [1])
  /\ (forall x, x_cached (self s) = Some x ->
       exists mode, mode ∈ modes
         /\ joint_result o x mode (fval_cached (self s)) (grad_cached (self s)))
  /\ (x_cached (self s) = None ->
      (fval_cached (self s) = PyNone /\ grad_cached (self s) = PyNone)
      \/ exists x' mode, mode ∈ modes
           /\ joint_result o x' mode (fval_cached (self s)) (grad_cached (self s)))
  /\ (forall x sensi_orders mode,
        let s' := snd (call_unprocessed x sensi_orders mode s) in
        x_cached (self s') = None ->
        fval_cached (self s') = fval_cached (self s)
        /\ grad_cached (self s') = grad_cached (self s))
  /\ (x_cached (self s) = None ->
      forall later,
        fst (observe later s) = fst (observe later (start (blank o)))
        /\ inner_calls (snd (observe later s))
           = inner_calls s ++ inner_calls (snd (observe later (start (blank o))))).
Proof.
  split; [repeat split; reflexivity|].
  apply (cache_invariant_holds Examples.sum_objective Examples.sum_cache
           [Evaluate [1; 2] [1] MODE_FUN; Evaluate [1; 2] [0] MODE_FUN;
            Evaluate [3; 4] [0] "mode_res"; Reinitialize;
            Evaluate [5] [0; 1] MODE_FUN; Evaluate [6] [0] "mode_res";
            Evaluate [7] [0] MODE_FUN]).
  - reflexivity.
  - exact sum_objective_joint_complete.
Defined.

End CachedMore.

(** ** Further properties of LoggingObjective *)

Module LoggingMore.
Import Logging LoggingFacts.

(** X9. After any sequence of calls on a logger whose file is there, the
    file holds the log it held before followed by the entries of the
    calls in call order: one entry for a call whose inner evaluation
    failed or returned a result with ['fval'], none for a result without
    it.  The caller gets the inner outcome, or [KeyError] in the last
    case.  No other file is touched. *)
Theorem run_calls_log_contents (this : LoggingObjective) (mode : string)
    (calls : list (ndarray * orders)) (w : World) (log : list LogEntry) :
  files w !! filename this = Some log ->
  let out := run_calls this mode calls w in
  fst out = map (outcome_of (objective this) mode) calls
  /\ files (snd out) !! filename this
     = Some (log ++ omap (entry_of (objective this) mode) calls)
  /\ forall path, path <> filename this ->
       files (snd out) !! path = files w !! path.
Proof.
  revert w log. induction calls as [|[x so] calls IH]; intros w log Hfile.
  - cbn. rewrite app_nil_r. done.
  - assert (Hhead : exists l,
      call_unprocessed this x so mode w
        = (outcome_of (objective this) mode (x, so), after_call this w log l)
      /\ l ++ omap (entry_of (objective this) mode) calls
         = log ++ omap (entry_of (objective this) mode) ((x, so) :: calls)).
    { rewrite (call_unprocessed_paths this x so mode w log Hfile).
      cbn [omap list_omap]. unfold outcome_of, entry_of at 2 4. cbn [fst snd].
      destruct (inner_call_unprocessed (objective this) x so mode) as [r|e];
        [destruct (r !! "fval") as [fval|]|];
        eexists; (split; [reflexivity|]); rewrite <- ?app_assoc; reflexivity. }
    destruct Hhead as (l & Hcall & Hl).
    cbn zeta. cbn [run_calls map]. rewrite Hcall.
    destruct (IH (after_call this w log l) l) as (Hout & Hlog & Hoth);
      [apply lookup_insert_eq|].
    destruct (run_calls this mode calls (after_call this w log l)) as [rs w2].
    cbn [fst snd] in *. split; [now rewrite Hout|split].
    + now rewrite Hlog, Hl.
    + intros path Hne. rewrite (Hoth path Hne). cbn.
      now rewrite lookup_insert_ne.
Qed.

(** The witness: four calls on the sum logger; the gradient-only call
    leaves no entry. *)
Lemma run_calls_log_contents_witness :
  let calls := [([1; 2], [0]); ([1; 2], [1]); ([-1], [0; 1]); ([3], [0; 1])] in
  let e := InnerEvaluationFailure "negative coordinate" in
  let out := run_calls Examples.sum_logger MODE_FUN calls Examples.logging_world in
  fst out = [Returned {[ FVAL := Scalar 3 ]}; Raised (KeyError "fval"); Raised e;
             Returned (<[ FVAL := Scalar 3 ]> {[ GRAD := Vector [1] ]})]
  /\ files (snd out) !! "calls.pickle"
     = Some [entry_fval [1; 2] [0] MODE_FUN (Scalar 3);
             entry_err [-1] [0; 1] MODE_FUN e;
             entry_fval [3] [0; 1] MODE_FUN (Scalar 3)]
  /\ forall path, path <> "calls.pickle" ->
       files (snd out) !! path = files Examples.logging_world !! path.
Proof.
  exact (run_calls_log_contents Examples.sum_logger MODE_FUN
           [([1; 2], [0]); ([1; 2], [1]); ([-1], [0; 1]); ([3], [0; 1])]
           Examples.logging_world [] eq_refl).
Defined.

(** X10. [__init__] never raises and leaves a log at [filename]: the
    empty log when [reset] is set or no file was there, the log that was
    there otherwise.  Other files and [stderr] are untouched. *)
Theorem init_leaves_readable_log (o : ObjectiveBase) (path : string)
    (print reset : bool) (w : World) :
  let out := __init__ o path print reset w in
  fst out = Returned {| objective := o; filename := path; print_idx := print |}
  /\ files (snd out) !! path
     = Some (if reset then [] else default [] (files w !! path))
  /\ (forall other, other <> path -> files (snd out) !! other = files w !! other)
  /\ stderr (snd out) = stderr w.
Proof.
  unfold __init__. LoggingFacts.run.
  destruct (files w !! path) as [log|] eqn:Hfile.
  - rewrite bool_decide_eq_true_2 by (now exists log).
    destruct reset; cbn.
    + repeat split; [apply lookup_insert_eq|].
      intros other Hne. now rewrite lookup_insert_ne, lookup_delete_ne.
    + repeat split. exact Hfile.
  - rewrite bool_decide_eq_false_2 by (intros [? ?]; discriminate). cbn.
    repeat split; [rewrite lookup_insert_eq; now destruct reset|].
    intros other Hne. now rewrite lookup_insert_ne.
Qed.

(** X11. [__deepcopy__] returns a logger with the same file name and
    [print_idx] and does not reset the log: the world is unchanged when
    the file is there, and an empty log is created when it is not. *)
Theorem deepcopy_keeps_log (this : LoggingObjective) (w : World) :
  __deepcopy__ this w
  = (Returned this,
     match files w !! filename this with
     | Some _ => w
     | None => {| files := <[ filename this := [] ]> (files w);
                  stderr := stderr w |}
     end).
Proof.
  destruct this as [o path print]. destruct w as [fs err].
  unfold __deepcopy__, __init__, deepcopy_objective. LoggingFacts.run.
  cbn [objective filename print_idx].
  destruct (fs !! path) as [log|] eqn:Hfile.
  - rewrite bool_decide_eq_true_2 by (now exists log). reflexivity.
  - rewrite bool_decide_eq_false_2 by (intros [? ?]; discriminate). reflexivity.
Qed.

(** X12. With [print_idx], the index printed before a call that leaves an
    entry is the position of that entry in the dumped log. *)
Theorem printed_index_locates_entry (this : LoggingObjective) (x : ndarray)
    (sensi_orders : orders) (mode : string) (w : World) (log : list LogEntry)
    (e : LogEntry) :
  print_idx this = true ->
  files w !! filename this = Some log ->
  entry_of (objective this) mode (x, sensi_orders) = Some e ->
  let w' := snd (call_unprocessed this x sensi_orders mode w) in
  stderr w' = stderr w ++ [length log]
  /\ exists log', files w' !! filename this = Some log'
                  /\ log' !! length log = Some e
                  /\ length log' = S (length log).
Proof.
  intros Hprint Hfile He. cbn zeta.
  rewrite (call_unprocessed_paths this x sensi_orders mode w log Hfile).
  unfold entry_of in He. cbn [fst snd] in He.
  destruct (inner_call_unprocessed (objective this) x sensi_orders mode) as [r|err];
    [destruct (r !! "fval") as [fval|]; [|discriminate]|];
    injection He as <-; cbn; rewrite Hprint; (split; [reflexivity|]);
    eexists; (split; [apply lookup_insert_eq|]);
    (split; [apply list_lookup_middle; reflexivity|rewrite length_app; cbn; lia]).
Qed.

(** The witness: the third call on the sum logger. *)
Lemma printed_index_locates_entry_witness :
  let w := snd (run_calls Examples.sum_logger MODE_FUN
                  [([1; 2], [0]); ([3; 4], [0])] Examples.logging_world) in
  let e := entry_err [-1] [0] MODE_FUN (InnerEvaluationFailure "negative coordinate") in
  let w' := snd (call_unprocessed Examples.sum_logger [-1] [0] MODE_FUN w) in
  stderr w' = [0; 1; 2]%nat
  /\ exists log', files w' !! "calls.pickle" = Some log'
                  /\ log' !! 2%nat = Some e
                  /\ length log' = 3%nat.
Proof.
  exact (printed_index_locates_entry Examples.sum_logger [-1] [0] MODE_FUN
           (snd (run_calls Examples.sum_logger MODE_FUN
                   [([1; 2], [0]); ([3; 4], [0])] Examples.logging_world))
           [entry_fval [1; 2] [0] MODE_FUN (Scalar 3);
            entry_fval [3; 4] [0] MODE_FUN (Scalar 7)]
           (entry_err [-1] [0] MODE_FUN
              (InnerEvaluationFailure "negative coordinate"))
           eq_refl eq_refl eq_refl).
Defined.

(** X13. When the log file is not there, every call raises
    [FileNotFoundError] at [open] and changes nothing: the file is never
    created again by a call. *)
Theorem missing_log_file_fails_every_call (this : LoggingObjective)
    (mode : string) (calls : list (ndarray * orders)) (w : World) :
  files w !! filename this = None ->
  run_calls this mode calls w
  = (map (fun _ => Raised (FileNotFoundError (filename this))) calls, w).
Proof.
  intros Hfile. induction calls as [|[x so] calls IH]; [reflexivity|].
  cbn [run_calls map].
  assert (Hcall : call_unprocessed this x so mode w
                  = (Raised (FileNotFoundError (filename this)), w)).
  { unfold call_unprocessed. LoggingFacts.run. now rewrite Hfile. }
  rewrite Hcall, IH. reflexivity.
Qed.

(** The witness: the sum logger on the empty file system. *)
Lemma missing_log_file_fails_every_call_witness :
  run_calls Examples.sum_logger MODE_FUN [([1; 2], [0]); ([3; 4], [0; 1])]
    Examples.empty_world
  = ([Raised (FileNotFoundError "calls.pickle");
      Raised (FileNotFoundError "calls.pickle")], Examples.empty_world).
Proof.
  exact (missing_log_file_fails_every_call Examples.sum_logger MODE_FUN
           [([1; 2], [0]); ([3; 4], [0; 1])] Examples.empty_world eq_refl).
Defined.

End LoggingMore.

(** ** Properties of the model selection plots *)

Module ModelSelectionFacts.
Import ModelSelection.

(** A comprehension returns exactly when each element does. *)
Lemma comprehension_Ok {A B} (f : A -> result B) (l : list A) (bs : list B) :
  comprehension f l = Ok bs <-> Forall2 (fun a b => f a = Ok b) l bs.
Proof.
  revert bs. induction l as [|a l IH]; intros bs; cbn.
  - split; [intros [= <-]; constructor|intros H; inversion H; reflexivity].
  - destruct (f a) as [b|e] eqn:Hfa; cbn.
    + destruct (comprehension f l) as [bs'|e] eqn:Hl; cbn.
      * split.
        -- intros [= <-]. constructor; [exact Hfa|now apply IH].
        -- intros H. inversion H as [|? b' ? bs'' Hb Hbs]; subst.
           rewrite Hfa in Hb. injection Hb as <-.
           apply IH in Hbs. now injection Hbs as <-.
      * split; [discriminate|]. intros H.
        inversion H as [|? b' ? bs'' Hb Hbs]; subst. apply IH in Hbs. discriminate.
    + split; [discriminate|]. intros H.
      inversion H as [|? b' ? bs'' Hb Hbs]; subst. rewrite Hfa in Hb. discriminate.
Qed.

Lemma Forall2_last_l {A B} (P : A -> B -> Prop) (l : list A) (k : list B) (a : A) :
  Forall2 P l k -> last l = Some a -> exists b, last k = Some b /\ P a b.
Proof.
  intros HF Hl. apply last_Some in Hl as [l' ->].
  apply Forall2_app_inv_l in HF as (k1 & k2 & _ & H2 & ->).
  inversion H2 as [|? b ? ? Hab Hnil]; subst. inversion Hnil; subst.
  exists b. split; [apply last_snoc|exact Hab].
Qed.

Section WithConstants.
Variable MODEL_ID : string.

(** X14. When [plot_modelselection2] returns, there is one bar per model,
    in the order of the list, under the model's id; the height of a bar
    is the model's criterion value minus a common baseline, which is the
    criterion value of the last model when [relative] is set and 0
    otherwise; the ticks are [0 .. n-1].  With [relative] the last bar has
    height 0. *)
Theorem bars_measure_from_baseline
    (selected_models : list (gmap string cell)) (criterion : string)
    (relative : bool) (fz : Z) (figures : nat) (ax : Axes) :
  fst (plot_modelselection2 MODEL_ID selected_models criterion relative fz figures)
    = Ok ax ->
  exists base : Z,
    (if relative
     then exists m, last selected_models = Some m
                    /\ m !! criterion = Some (Num base)
     else base = 0)
    /\ Forall2 (fun m h => exists v, m !! criterion = Some (Num v) /\ h = v - base)
         selected_models (bar_height ax)
    /\ Forall2 (fun m id => m !! MODEL_ID = Some id) selected_models (bar_x ax)
    /\ xticklabels ax = bar_x ax
    /\ xticks ax = seq 0 (length selected_models)
    /\ (relative = true -> last (bar_height ax) = Some 0).
Proof.
  unfold plot_modelselection2.
  destruct (if relative then _ else _) as [zero|e] eqn:Hzero; [|discriminate].
  cbn [fst].
  destruct (comprehension (fun m => getitem m MODEL_ID) selected_models)
    as [ids|e] eqn:Hids; [|discriminate]. cbn [and_then].
  destruct (comprehension _ selected_models) as [hs|e] eqn:Hhs in |- *;
    [|discriminate]. cbn [and_then].
  destruct (comprehension _ selected_models) as [cs|e] eqn:Hcs in |- *;
    [|discriminate]. cbn [and_then].
  intros [= <-]. cbn [bar_height bar_x xticks xticklabels].
  apply comprehension_Ok in Hids, Hhs.
  assert (Hid : Forall2 (fun m id => m !! MODEL_ID = Some id) selected_models ids).
  { eapply Forall2_impl; [exact Hids|]. intros m id. unfold getitem.
    destruct (m !! MODEL_ID); [now intros [= ->]|discriminate]. }
  assert (Hh : forall base, zero = Num base ->
    Forall2 (fun m h => exists v, m !! criterion = Some (Num v) /\ h = v - base)
      selected_models hs).
  { intros base ->. eapply Forall2_impl; [exact Hhs|]. intros m h. unfold getitem.
    destruct (m !! criterion) as [[v|]|]; cbn; try discriminate.
    intros [= <-]. now exists v. }
  destruct relative.
  - destruct (last selected_models) as [m|] eqn:Hlast; [|discriminate].
    destruct (Forall2_last_l _ _ _ _ Hhs Hlast) as (h & Hlh & Hm).
    unfold getitem in Hzero, Hm.
    destruct (m !! criterion) as [c|] eqn:Hc; [|discriminate].
    injection Hzero as ->. cbn in Hm.
    destruct zero as [base|]; [|discriminate]. cbn in Hm. injection Hm as <-.
    exists base. split; [now exists m|]. split; [now apply Hh|].
    split; [exact Hid|]. split; [reflexivity|].
    split; [now rewrite (Forall2_length _ _ _ Hid)|].
    intros _. rewrite Hlh. f_equal. lia.
  - injection Hzero as <-. exists 0. split; [reflexivity|].
    split; [now apply Hh|]. split; [exact Hid|]. split; [reflexivity|].
    split; [now rewrite (Forall2_length _ _ _ Hid)|discriminate].
Qed.

(** X15. The key [compared_<MODEL_ID>] is read from every model although
    the list built from it is not plotted: when one model lacks it the
    call cannot return, and unless it failed on the baseline the figure
    is created all the same. *)
Theorem unplotted_key_is_required
    (selected_models : list (gmap string cell)) (criterion : string)
    (relative : bool) (fz : Z) (figures : nat) (m : gmap string cell) :
  m ∈ selected_models ->
  m !! ("compared_" ++ MODEL_ID)%string = None ->
  let out := plot_modelselection2 MODEL_ID selected_models criterion relative
               fz figures in
  (exists e, fst out = Fail e)
  /\ (relative = false -> snd out = S figures).
Proof.
  intros Hin Hnone. cbn zeta. split.
  - destruct (plot_modelselection2 MODEL_ID selected_models criterion relative
                fz figures) as [[ax|e] n] eqn:Hout; [|now exists e].
    exfalso. unfold plot_modelselection2 in Hout.
    destruct (if relative then _ else _) as [zero|e]; [|discriminate].
    injection Hout as Hout _.
    destruct (comprehension (fun m0 => getitem m0 MODEL_ID) selected_models);
      [|discriminate]. cbn [and_then] in Hout.
    destruct (comprehension _ selected_models) in Hout; [|discriminate].
    cbn [and_then] in Hout.
    destruct (comprehension (fun m0 => getitem m0 ("compared_" ++ MODEL_ID)%string)
                selected_models) as [cs|e] eqn:Hcs; [|discriminate].
    apply comprehension_Ok in Hcs.
    apply list_elem_of_lookup in Hin as [i Hi].
    destruct (Forall2_lookup_l _ _ _ _ _ Hcs Hi) as (c & _ & Hc).
    unfold getitem in Hc. rewrite Hnone in Hc. discriminate.
  - intros ->. reflexivity.
Qed.

(** X16. The empty list: with [relative] the baseline [selected_models[-1]]
    raises [IndexError] before a figure is created; without it the call
    returns an empty chart. *)
Theorem empty_selection (criterion : string) (fz : Z) (figures : nat) :
  plot_modelselection2 MODEL_ID [] criterion true fz figures
    = (Fail IndexError, figures)
  /\ plot_modelselection2 MODEL_ID [] criterion false fz figures
    = (Ok {| bar_x := []; bar_height := []; xticks := [];
             ylabel := (criterion ++ "(absolute)")%string; ylabel_fontsize := fz;
             xticklabels := []; ticklabel_fontsize := fz - 2 |},
       S figures).
Proof. split; reflexivity. Qed.

End WithConstants.

Section FrameFacts.

Variable INITIAL_VIRTUAL_MODEL : string.
Variable number : Type.
Variable float64 : Type.
Variable to_float64 : number -> float64.
Variable fle : float64 -> float64 -> bool.
Variable fsub : float64 -> float64 -> float64.
Variable fzero : float64.

(** What the properties below need of float64 values that are finite:
    [<=] is total and transitive, and a difference [a - b] with [b <= a]
    is not below zero. *)
Hypothesis fle_total : forall a b, fle a b = true \/ fle b a = true.
Hypothesis fle_trans :
  forall a b c, fle a b = true -> fle b c = true -> fle a c = true.
Hypothesis fsub_nonneg : forall a b, fle b a = true -> fle fzero (fsub a b) = true.

Lemma fle_refl (a : float64) : fle a a = true.
Proof. now destruct (fle_total a a). Qed.

(** The minimum of a column is one of its values and is below each. *)
Lemma column_min_spec (others : list float64) (first : float64) :
  let least := column_min fle first others in
  least ∈ first :: others
  /\ Forall (fun v => fle least v = true) (first :: others).
Proof.
  unfold column_min. revert first.
  induction others as [|v others IH]; intros first; cbn.
  - split; [apply elem_of_cons; now left|].
    constructor; [apply fle_refl|constructor].
  - destruct (fle first v) eqn:Hfv.
    + destruct (IH first) as [Hin Hall]. cbn zeta in *.
      inversion Hall as [|? ? Hf Hrest]; subst. split.
      * apply elem_of_cons in Hin as [->|Hin]; [apply elem_of_cons; now left|].
        apply elem_of_cons; right. apply elem_of_cons; now right.
      * constructor; [exact Hf|]. constructor; [|exact Hrest].
        now apply (fle_trans _ first).
    + destruct (IH v) as [Hin Hall]. cbn zeta in *.
      inversion Hall as [|? ? Hv Hrest]; subst. split.
      * apply elem_of_cons; now right.
      * assert (Hvf : fle v first = true)
          by (destruct (fle_total first v); congruence).
        constructor; [now apply (fle_trans _ v)|].
        constructor; [exact Hv|exact Hrest].
Qed.

Lemma build_df_xlabels (selection_history : list (string * HistoryEntry number)) :
  map xlabel (build_df to_float64 fle fsub selection_history)
  = map (fun kh => h_compared (snd kh)) selection_history.
Proof.
  unfold build_df. destruct selection_history as [|[k h0] rest]; [reflexivity|].
  rewrite map_map. reflexivity.
Qed.

(** The least stored value of a criterion, for a history that is not
    empty. *)
Lemma column_min_least (f : HistoryEntry number -> number)
    (k0 : string * HistoryEntry number)
    (rest : list (string * HistoryEntry number)) :
  least_stored to_float64 fle f (k0 :: rest)
    (column_min fle (to_float64 (f (snd k0)))
       (map (fun kh => to_float64 (f (snd kh))) rest)).
Proof.
  destruct (column_min_spec (map (fun kh => to_float64 (f (snd kh))) rest)
              (to_float64 (f (snd k0)))) as [Hin Hall].
  cbn zeta in *. split.
  - apply elem_of_cons in Hin as [Heq|Hin].
    + exists k0. split; [apply elem_of_cons; now left|exact Heq].
    + apply list_elem_of_fmap in Hin as (k & Hk & Hkin).
      exists k. split; [apply elem_of_cons; now right|exact Hk].
  - intros k Hk. rewrite Forall_forall in Hall. apply Hall.
    apply elem_of_cons in Hk as [->|Hk]; [apply elem_of_cons; now left|].
    apply elem_of_cons; right. apply list_elem_of_fmap. now exists k.
Qed.

(** A row of [df] is an entry of the history, stored, with its two
    differences from the least stored values. *)
Lemma build_df_rows (selection_history : list (string * HistoryEntry number))
    (r : Row float64) :
  r ∈ build_df to_float64 fle fsub selection_history ->
  exists kh least_AIC least_BIC,
    kh ∈ selection_history
    /\ least_stored to_float64 fle h_AIC selection_history least_AIC
    /\ least_stored to_float64 fle h_BIC selection_history least_BIC
    /\ AIC r = to_float64 (h_AIC (snd kh))
    /\ BIC r = to_float64 (h_BIC (snd kh))
    /\ xlabel r = h_compared (snd kh)
    /\ chosen_model r = fst kh
    /\ delta_AIC r = fsub (to_float64 (h_AIC (snd kh))) least_AIC
    /\ delta_BIC r = fsub (to_float64 (h_BIC (snd kh))) least_BIC.
Proof.
  unfold build_df. destruct selection_history as [|[k h0] rest].
  - intros H. inversion H.
  - intros H. apply list_elem_of_fmap in H as (kh & -> & Hin).
    exists kh. eexists _, _. split; [exact Hin|].
    split; [exact (column_min_least h_AIC (k, h0) rest)|].
    split; [exact (column_min_least h_BIC (k, h0) rest)|].
    cbn. repeat split.
Qed.

(** Every entry of the history has its row in [df]. *)
Lemma build_df_has_row (selection_history : list (string * HistoryEntry number))
    (kh : string * HistoryEntry number) :
  kh ∈ selection_history ->
  exists r, r ∈ build_df to_float64 fle fsub selection_history
            /\ xlabel r = h_compared (snd kh)
            /\ AIC r = to_float64 (h_AIC (snd kh)).
Proof.
  intros Hin. unfold build_df. destruct selection_history as [|[k0 h0] rest];
    [inversion Hin|].
  eexists. split; [apply list_elem_of_fmap; exists kh; split;
                    [reflexivity|exact Hin]|].
  cbn. now split.
Qed.

Lemma argmin_fold (rest : list (Row float64)) (r0 : Row float64) :
  let best := fold_left (fun best r => if fle (AIC best) (AIC r) then best else r)
                rest r0 in
  best ∈ r0 :: rest /\ Forall (fun r => fle (AIC best) (AIC r) = true) (r0 :: rest).
Proof.
  revert r0. induction rest as [|r rest IH]; intros r0; cbn.
  - split; [apply elem_of_cons; now left|].
    constructor; [apply fle_refl|constructor].
  - destruct (fle (AIC r0) (AIC r)) eqn:Hle.
    + destruct (IH r0) as [Hin Hall]. cbn zeta in *.
      inversion Hall as [|? ? Hr Hrest]; subst. split.
      * apply elem_of_cons in Hin as [->|Hin]; [apply elem_of_cons; now left|].
        apply elem_of_cons; right. apply elem_of_cons; now right.
      * constructor; [exact Hr|]. constructor; [|exact Hrest].
        now apply (fle_trans _ (AIC r0)).
    + destruct (IH r) as [Hin Hall]. cbn zeta in *.
      inversion Hall as [|? ? Hr Hrest]; subst. split.
      * apply elem_of_cons; now right.
      * assert (Hrr0 : fle (AIC r) (AIC r0) = true)
          by (destruct (fle_total (AIC r0) (AIC r)); congruence).
        constructor; [now apply (fle_trans _ (AIC r))|].
        constructor; [exact Hr|exact Hrest].
Qed.

Lemma idxmin_AIC_Some (df : list (Row float64)) (which_model : string)
    (row : Row float64) :
  idxmin_AIC fle df which_model = Some row ->
  row ∈ df /\ xlabel row = which_model
  /\ forall r, r ∈ df -> xlabel r = which_model -> fle (AIC row) (AIC r) = true.
Proof.
  unfold idxmin_AIC.
  destruct (filter (fun r => xlabel r = which_model) df) as [|r0 rest] eqn:Hf;
    [discriminate|].
  intros [= <-]. destruct (argmin_fold rest r0) as [Hin Hall]. cbn zeta in *.
  rewrite <- Hf in Hin, Hall. apply list_elem_of_filter in Hin as [Hx Hin].
  split; [exact Hin|]. split; [exact Hx|].
  intros r Hr Hxr. rewrite Forall_forall in Hall. apply Hall.
  now apply list_elem_of_filter.
Qed.

Lemma idxmin_AIC_None (df : list (Row float64)) (which_model : string)
    (r : Row float64) :
  r ∈ df -> xlabel r = which_model -> idxmin_AIC fle df which_model <> None.
Proof.
  intros Hr Hx. unfold idxmin_AIC.
  destruct (filter (fun r => xlabel r = which_model) df) as [|r0 rest] eqn:Hf;
    [|discriminate].
  assert (Hin : r ∈ filter (fun r => xlabel r = which_model) df)
    by now apply list_elem_of_filter.
  rewrite Hf in Hin. inversion Hin.
Qed.

Lemma follow_chain_length (df : list (Row float64)) (n i_m : nat)
    (which_model : string) (df_to_plot : list (PlotRow float64)) :
  length (follow_chain INITIAL_VIRTUAL_MODEL fle df n i_m which_model df_to_plot)
  = length df_to_plot.
Proof.
  revert i_m which_model df_to_plot.
  induction n as [|n IH]; intros i_m which_model df_to_plot; cbn; [reflexivity|].
  destruct (idxmin_AIC fle df which_model) as [row|]; [|reflexivity].
  rewrite IH. destruct (bool_decide (which_model = INITIAL_VIRTUAL_MODEL));
    rewrite ?length_map, length_insert; reflexivity.
Qed.

Lemma follow_chain_rows (df : list (Row float64)) (n i_m : nat)
    (which_model : string) (df_to_plot : list (PlotRow float64)) :
  Forall (fun p => forall r, p_data p = Some r -> r ∈ df) df_to_plot ->
  Forall (fun p => forall r, p_data p = Some r -> r ∈ df)
    (follow_chain INITIAL_VIRTUAL_MODEL fle df n i_m which_model df_to_plot).
Proof.
  revert i_m which_model df_to_plot.
  induction n as [|n IH]; intros i_m which_model df_to_plot Hall; cbn; [exact Hall|].
  destruct (idxmin_AIC fle df which_model) as [row|] eqn:Hmin; [|exact Hall].
  apply idxmin_AIC_Some in Hmin as (Hin & _ & _).
  apply IH.
  assert (Hcopied : Forall (fun p => forall r, p_data p = Some r -> r ∈ df)
            (<[ i_m := {| p_data := Some row; p_xlabel := Some (xlabel row) |} ]>
               df_to_plot)).
  { apply Forall_insert; [exact Hall|]. cbn. now intros r [= <-]. }
  destruct (bool_decide (which_model = INITIAL_VIRTUAL_MODEL)); [|exact Hcopied].
  apply Forall_fmap. eapply Forall_impl; [exact Hcopied|]. now intros p Hp.
Qed.

Lemma follow_chain_first_row (df : list (Row float64)) (n i_m : nat)
    (which_model : string) (df_to_plot : list (PlotRow float64))
    (d : option (Row float64)) :
  (0 < i_m)%nat ->
  df_to_plot !! 0%nat
    = Some {| p_data := d; p_xlabel := Some "Initial model search" |} ->
  follow_chain INITIAL_VIRTUAL_MODEL fle df n i_m which_model df_to_plot !! 0%nat
    = Some {| p_data := d; p_xlabel := Some "Initial model search" |}.
Proof.
  revert i_m which_model df_to_plot.
  induction n as [|n IH]; intros i_m which_model df_to_plot Hpos H0; cbn; [exact H0|].
  destruct (idxmin_AIC fle df which_model) as [row|]; [|exact H0].
  apply IH; [lia|].
  assert (Hcopied :
    <[ i_m := {| p_data := Some row; p_xlabel := Some (xlabel row) |} ]> df_to_plot
      !! 0%nat = Some {| p_data := d; p_xlabel := Some "Initial model search" |}).
  { rewrite list_lookup_insert_ne by lia. exact H0. }
  destruct (bool_decide (which_model = INITIAL_VIRTUAL_MODEL)); [|exact Hcopied].
  rewrite list_lookup_fmap, Hcopied. reflexivity.
Qed.

(** The first row of [df_to_plot] when some entry was compared with the
    initial virtual model. *)
Lemma first_row_of_chain (selection_history : list (string * HistoryEntry number))
    (kh : string * HistoryEntry number) :
  kh ∈ selection_history ->
  h_compared (snd kh) = INITIAL_VIRTUAL_MODEL ->
  let df := build_df to_float64 fle fsub selection_history in
  let n := length (remove_dups (map xlabel df)) in
  exists row,
    follow_chain INITIAL_VIRTUAL_MODEL fle df n 0 INITIAL_VIRTUAL_MODEL
      (replicate n {| p_data := None; p_xlabel := None |}) !! 0%nat
    = Some {| p_data := Some row; p_xlabel := Some "Initial model search" |}
    /\ row ∈ df /\ xlabel row = INITIAL_VIRTUAL_MODEL
    /\ forall r, r ∈ df -> xlabel r = INITIAL_VIRTUAL_MODEL ->
         fle (AIC row) (AIC r) = true.
Proof.
  intros Hin Hcmp df n.
  destruct (build_df_has_row selection_history kh Hin) as (r & Hr & Hxr & _).
  fold df in Hr. rewrite Hcmp in Hxr.
  assert (Hn : (0 < n)%nat).
  { subst n. destruct (remove_dups (map xlabel df)) eqn:Hd; [|cbn; lia].
    assert (Hx : xlabel r ∈ remove_dups (map xlabel df)).
    { apply elem_of_remove_dups, list_elem_of_fmap. now exists r. }
    rewrite Hd in Hx. inversion Hx. }
  destruct n as [|n']; [lia|]. cbn [follow_chain].
  destruct (idxmin_AIC fle df INITIAL_VIRTUAL_MODEL) as [row|] eqn:Hmin;
    [|now destruct (idxmin_AIC_None df INITIAL_VIRTUAL_MODEL r Hr Hxr)].
  rewrite bool_decide_eq_true_2 by reflexivity.
  exists row. split; [|now apply idxmin_AIC_Some].
  apply follow_chain_first_row; [lia|cbn; reflexivity].
Qed.

(** X17. [plot_modelselection] fails on its arguments only: it returns
    exactly when [aic_or_bic] is ['AIC'] or ['BIC'] and [mode] is ['delta']
    or ['absolute'], whatever the history holds; otherwise no branch
    assigns [col_to_plot] and the call raises [UnboundLocalError].  In
    both cases the figure has been created. *)
Theorem plot_fails_on_arguments_only
    (selection_history : list (string * HistoryEntry number))
    (aic_or_bic mode : string) (fz : Z) (figures : nat) :
  let out := plot_modelselection INITIAL_VIRTUAL_MODEL to_float64 fle fsub
               selection_history aic_or_bic mode fz figures in
  ((exists ax, fst out = Ok ax)
   <-> (aic_or_bic = "AIC" \/ aic_or_bic = "BIC")
       /\ (mode = "delta" \/ mode = "absolute"))
  /\ (fst out = Fail (UnboundLocalError "col_to_plot")
      \/ exists ax, fst out = Ok ax)
  /\ snd out = S figures.
Proof.
  cbn zeta. unfold plot_modelselection, choose_column. cbn [fst snd].
  repeat case_bool_decide; subst; cbn.
  all: split; [split; [intros [ax Hax]; try discriminate Hax; auto
                      |intros [[?|?] [?|?]]; try congruence; eauto]|].
  all: split; [eauto|reflexivity].
Qed.

(** X18. The number of bars is the number of distinct models that the
    entries of the history were compared with, also when the chain stops
    early; labels and ticks are as many. *)
Theorem bars_count_compared_models
    (selection_history : list (string * HistoryEntry number))
    (aic_or_bic mode : string) (fz : Z) (figures : nat) (ax : HistoryAxes float64) :
  fst (plot_modelselection INITIAL_VIRTUAL_MODEL to_float64 fle fsub
         selection_history aic_or_bic mode fz figures) = Ok ax ->
  let n := length (remove_dups (map (fun kh => h_compared (snd kh))
                                    selection_history)) in
  length (h_heights ax) = n
  /\ length (h_xticklabels ax) = n
  /\ h_positions ax = seq 0 n
  /\ h_xticks ax = seq 0 n.
Proof.
  unfold plot_modelselection. cbn [fst].
  destruct (choose_column aic_or_bic mode) as [[col mode']|]; [|discriminate].
  intros [= <-]. cbn.
  rewrite !length_map, follow_chain_length, length_replicate, build_df_xlabels.
  repeat split.
Qed.

(** X19. In ['delta'] mode every bar that is not NaN is the stored
    criterion of an entry of the history minus the least stored value of
    that criterion in the history, the difference taken in float64; it is
    not below zero. *)
Theorem delta_bars_nonnegative
    (selection_history : list (string * HistoryEntry number))
    (aic_or_bic : string) (fz : Z) (figures : nat) (ax : HistoryAxes float64)
    (h : float64) :
  fst (plot_modelselection INITIAL_VIRTUAL_MODEL to_float64 fle fsub
         selection_history aic_or_bic "delta" fz figures) = Ok ax ->
  Some h ∈ h_heights ax ->
  exists kh least,
    kh ∈ selection_history
    /\ least_stored to_float64 fle (criterion_of aic_or_bic) selection_history least
    /\ h = fsub (to_float64 (criterion_of aic_or_bic (snd kh))) least
    /\ fle fzero h = true.
Proof.
  unfold plot_modelselection. cbn [fst].
  set (df := build_df to_float64 fle fsub selection_history).
  set (n := length (remove_dups (map xlabel df))).
  assert (Hrows : Forall (fun p => forall r, p_data p = Some r -> r ∈ df)
            (follow_chain INITIAL_VIRTUAL_MODEL fle df n 0 INITIAL_VIRTUAL_MODEL
               (replicate n {| p_data := None; p_xlabel := None |}))).
  { apply follow_chain_rows. apply Forall_replicate. cbn. discriminate. }
  rewrite Forall_forall in Hrows.
  assert (Hcol : forall col : Row float64 -> float64,
    Some h ∈ map (fun p => col <$> p_data p)
               (follow_chain INITIAL_VIRTUAL_MODEL fle df n 0 INITIAL_VIRTUAL_MODEL
                  (replicate n {| p_data := None; p_xlabel := None |})) ->
    exists r, r ∈ df /\ h = col r).
  { intros col Hin. apply list_elem_of_fmap in Hin as (p & Hp & Hin).
    destruct (p_data p) as [r|] eqn:Hd; [|discriminate].
    cbn in Hp. injection Hp as ->. exists r. split; [now apply (Hrows p Hin)|reflexivity]. }
  unfold choose_column, criterion_of. repeat case_bool_decide; try discriminate.
  - intros [= <-]. cbn. intros Hin. destruct (Hcol _ Hin) as (r & Hr & ->).
    destruct (build_df_rows selection_history r Hr)
      as (kh & la & lb & Hkh & Hla & Hlb & _ & _ & _ & _ & Hda & _).
    exists kh, la. rewrite Hda. repeat split; try apply Hla; try exact Hkh.
    apply fsub_nonneg. now apply Hla.
  - intros [= <-]. cbn. intros Hin. destruct (Hcol _ Hin) as (r & Hr & ->).
    destruct (build_df_rows selection_history r Hr)
      as (kh & la & lb & Hkh & Hla & Hlb & _ & _ & _ & _ & _ & Hdb).
    exists kh, lb. rewrite Hdb. repeat split; try apply Hlb; try exact Hkh.
    apply fsub_nonneg. now apply Hlb.
Qed.

(** X20. When some entry was compared with the initial virtual model, then
    in every mode in which the call returns the first bar is labelled
    ['Initial model search'] and belongs to the entry of least stored AIC
    among those compared with the initial virtual model, also when BIC
    is plotted: in absolute mode its height is the stored AIC, or BIC, of
    that entry, and in delta mode that value minus the least stored value
    of the criterion in the history. *)
Theorem first_bar_is_best_initial
    (selection_history : list (string * HistoryEntry number))
    (aic_or_bic mode : string) (fz : Z) (figures : nat) (ax : HistoryAxes float64)
    (kh : string * HistoryEntry number) :
  kh ∈ selection_history ->
  h_compared (snd kh) = INITIAL_VIRTUAL_MODEL ->
  fst (plot_modelselection INITIAL_VIRTUAL_MODEL to_float64 fle fsub
         selection_history aic_or_bic mode fz figures) = Ok ax ->
  h_xticklabels ax !! 0%nat = Some (Some "Initial model search")
  /\ exists best,
       best ∈ selection_history
       /\ h_compared (snd best) = INITIAL_VIRTUAL_MODEL
       /\ (forall other, other ∈ selection_history ->
             h_compared (snd other) = INITIAL_VIRTUAL_MODEL ->
             fle (to_float64 (h_AIC (snd best))) (to_float64 (h_AIC (snd other)))
             = true)
       /\ (mode = "absolute" ->
           h_heights ax !! 0%nat
           = Some (Some (to_float64 (criterion_of aic_or_bic (snd best)))))
       /\ (mode = "delta" ->
           exists least,
             least_stored to_float64 fle (criterion_of aic_or_bic)
               selection_history least
             /\ h_heights ax !! 0%nat
                = Some (Some (fsub (to_float64 (criterion_of aic_or_bic (snd best)))
                                least))).
Proof.
  intros Hin Hcmp. unfold plot_modelselection. cbn [fst].
  destruct (first_row_of_chain selection_history kh Hin Hcmp)
    as (row & H0 & Hrow & Hxrow & Hleast). cbn zeta in *.
  destruct (build_df_rows selection_history row Hrow)
    as (best & la & lb & Hbest & Hla & Hlb & Ha & Hb & Hx & _ & Hda & Hdb).
  destruct (choose_column aic_or_bic mode) as [[col mode']|] eqn:Hcol;
    [|discriminate].
  intros [= <-]. cbn [h_xticklabels h_heights].
  rewrite !list_lookup_fmap, H0. cbn. split; [reflexivity|].
  exists best. split; [exact Hbest|]. split; [now rewrite <- Hx|].
  split; [|split].
  - intros other Hother Hoc.
    destruct (build_df_has_row selection_history other Hother) as (ro & Hro & Hxo & Hao).
    rewrite <- Ha, <- Hao. apply Hleast; [exact Hro|now rewrite Hxo].
  - intros ->. unfold choose_column, criterion_of in *.
    repeat case_bool_decide; try discriminate; injection Hcol as <- _;
      now rewrite ?Ha, ?Hb.
  - intros ->. unfold choose_column, criterion_of in *.
    repeat case_bool_decide; try discriminate; injection Hcol as <- _.
    + exists la. split; [exact Hla|now rewrite Hda].
    + exists lb. split; [exact Hlb|now rewrite Hdb].
Qed.

End FrameFacts.

(** Integers stored as float64: the order is that of the integers, and a
    rounded integer that is not below zero stays so. *)
Lemma float64_of_int_nonneg (z : Z) : 0 <= z -> 0 <= float64_of_int z.
Proof.
  intros Hz. unfold float64_of_int.
  destruct (Z.ltb (Z.abs z) (2 ^ 53)) eqn:Hsmall; [exact Hz|].
  apply Z.ltb_ge in Hsmall.
  assert (Hsgn : 0 <= Z.sgn z) by (apply Z.sgn_nonneg; exact Hz).
  assert (He : 0 < 2 ^ (Z.log2 (Z.abs z) - 52)).
  { apply Z.pow_pos_nonneg; [lia|].
    assert (53 <= Z.log2 (Z.abs z)); [|lia].
    apply Z.log2_le_pow2; lia. }
  assert (Hq : 0 <= Z.abs z / 2 ^ (Z.log2 (Z.abs z) - 52))
    by (apply Z.div_pos; lia).
  apply Z.mul_nonneg_nonneg; [exact Hsgn|].
  apply Z.mul_nonneg_nonneg; [|lia].
  repeat match goal with |- context [if ?b then _ else _] => destruct b end; lia.
Qed.

Lemma leb_total (a b : Z) : Z.leb a b = true \/ Z.leb b a = true.
Proof. destruct (Z.leb_spec a b); [now left|right; apply Z.leb_le; lia]. Qed.

Lemma leb_trans (a b c : Z) :
  Z.leb a b = true -> Z.leb b c = true -> Z.leb a c = true.
Proof. rewrite !Z.leb_le. lia. Qed.

Lemma float64_sub_nonneg (a b : Z) :
  Z.leb b a = true -> Z.leb 0 (float64_sub a b) = true.
Proof.
  rewrite !Z.leb_le. intros H. apply float64_of_int_nonneg. lia.
Qed.

(** The witness of X14: the three selected models, relative to the last. *)
Lemma bars_measure_from_baseline_witness :
  let ax := SelectionExamples.selected_axes in
  let models := SelectionExamples.selected in
  exists base : Z,
    (exists m, last models = Some m /\ m !! "AIC" = Some (Num base))
    /\ Forall2 (fun m h => exists v, m !! "AIC" = Some (Num v) /\ h = v - base)
         models (bar_height ax)
    /\ Forall2 (fun m id => m !! "modelId" = Some id) models (bar_x ax)
    /\ xticklabels ax = bar_x ax
    /\ xticks ax = seq 0 (length models)
    /\ (true = true -> last (bar_height ax) = Some 0).
Proof.
  exact (bars_measure_from_baseline "modelId" SelectionExamples.selected "AIC"
           true 14 0 SelectionExamples.selected_axes eq_refl).
Defined.

(** The witness of X15: the second model has no [compared_modelId]. *)
Lemma unplotted_key_is_required_witness :
  let out := plot_modelselection2 "modelId" SelectionExamples.unlinked "AIC"
               false 14 0 in
  (exists e, fst out = Fail e) /\ (false = false -> snd out = 1%nat).
Proof.
  apply (unplotted_key_is_required "modelId" SelectionExamples.unlinked "AIC"
           false 14 0 {[ "modelId" := Str "M2"; "AIC" := Num 25 ]}).
  - apply elem_of_cons. right. apply elem_of_cons. left. reflexivity.
  - reflexivity.
Defined.

(** The witness of X18: three distinct compared models, three bars, the
    last one NaN because the chain stops after two. *)
Lemma bars_count_compared_models_witness :
  let ax := SelectionExamples.history_delta_axes in
  h_heights ax = [Some 3; Some 0; None]
  /\ (length (h_heights ax) = 3%nat
      /\ length (h_xticklabels ax) = 3%nat
      /\ h_positions ax = seq 0 3
      /\ h_xticks ax = seq 0 3).
Proof.
  split; [reflexivity|].
  exact (bars_count_compared_models "PYPESTO_INITIAL_MODEL" Z Z float64_of_int
           Z.leb float64_sub SelectionExamples.history "AIC" "delta" 14 0
           SelectionExamples.history_delta_axes eq_refl).
Defined.

(** The witness of X19: two entries whose AIC, [2^53 + 1] and [2^53],
    are stored as the same float64; both bars are 0. *)
Lemma delta_bars_nonnegative_witness :
  let history := SelectionExamples.close_history in
  SelectionExamples.plot_history history "AIC" "delta" 14 0%nat
    = (Ok SelectionExamples.close_delta_axes, 1%nat)
  /\ exists kh least,
       kh ∈ history
       /\ least_stored float64_of_int Z.leb (criterion_of "AIC") history least
       /\ 0 = float64_sub (float64_of_int (criterion_of "AIC" (snd kh))) least
       /\ Z.leb 0 0 = true.
Proof.
  split; [reflexivity|].
  apply (delta_bars_nonnegative "PYPESTO_INITIAL_MODEL" Z Z float64_of_int
           Z.leb float64_sub 0 leb_total leb_trans float64_sub_nonneg
           SelectionExamples.close_history "AIC" 14 0
           SelectionExamples.close_delta_axes 0).
  - reflexivity.
  - apply elem_of_cons. left. reflexivity.
Defined.

(** The witness of X20: BIC is plotted; of [M1] and [M2], compared with
    the initial model, [M2] has the lesser AIC, and the first bar is its
    BIC, 31. *)
Lemma first_bar_is_best_initial_witness :
  let history := SelectionExamples.history in
  exists ax,
    SelectionExamples.plot_history history "BIC" "absolute" 14 0%nat
      = (Ok ax, 1%nat)
    /\ h_heights ax = [Some 31; Some 30; None]
    /\ h_xticklabels ax !! 0%nat = Some (Some "Initial model search")
    /\ exists best,
         best ∈ history
         /\ h_compared (snd best) = "PYPESTO_INITIAL_MODEL"
         /\ (forall other, other ∈ history ->
               h_compared (snd other) = "PYPESTO_INITIAL_MODEL" ->
               Z.leb (float64_of_int (h_AIC (snd best)))
                     (float64_of_int (h_AIC (snd other))) = true)
         /\ ("absolute" = "absolute" ->
             h_heights ax !! 0%nat
             = Some (Some (float64_of_int (criterion_of "BIC" (snd best)))))
         /\ ("absolute" = "delta" ->
             exists least,
               least_stored float64_of_int Z.leb (criterion_of "BIC") history least
               /\ h_heights ax !! 0%nat
                  = Some (Some (float64_sub
                                  (float64_of_int (criterion_of "BIC" (snd best)))
                                  least))).
Proof.
  eexists. split; [reflexivity|]. split; [reflexivity|].
  apply (first_bar_is_best_initial "PYPESTO_INITIAL_MODEL" Z Z float64_of_int
           Z.leb float64_sub leb_total leb_trans
           SelectionExamples.history "BIC" "absolute" 14 0 _
           ("M1", SelectionExamples.entry 30 33 "PYPESTO_INITIAL_MODEL")).
  - apply elem_of_cons. left. reflexivity.
  - reflexivity.
  - reflexivity.
Defined.

End ModelSelectionFacts.
